(** * geoist: the epicenter forward model and the derivative anomaly detector

    A shallow embedding of

    - [geoist/inversion/epic2d.py]: class [Homogeneous] with its methods
      [__init__], [predicted] and [jacobian];
    - [geoist/snoopy/algorithms/anomaly_detector_algorithms/derivative_detector.py]:
      class [DerivativeDetector] with [_compute_derivatives] and [_set_scores];
    - [geoist/magmod/data/__init__.py]: the registry of model files.

    Python objects are records, methods are computations in a state and
    exception monad over the object's record, Python and numpy exceptions are
    values of [exn].  The arithmetic is an interface [Numeric] with two
    instances: the real numbers (the mathematics the docstrings state) and
    IEEE 754 binary64 (what Python's [float] and numpy's [float64] compute). *)

From Stdlib Require Import List Bool Arith Lia ZArith.
From Stdlib Require Import Reals Lra.
From Stdlib Require Import Floats.
From Stdlib Require String Ascii Finite.
Import ListNotations.

Set Implicit Arguments.

(** ** Exceptions and results *)

Inductive exn : Type :=
| ValueError
| IndexError
| KeyError
| ZeroDivisionError.

Inductive result (A : Type) : Type :=
| Ok (a : A)
| Raise (e : exn).

Arguments Ok {A} a.
Arguments Raise {A} e.

(** ** Methods: state and exception monad over the object *)

Definition M (S A : Type) : Type := S -> result A * S.

Definition ret {S A : Type} (a : A) : M S A := fun s => (Ok a, s).

Definition bind {S A B : Type} (m : M S A) (k : A -> M S B) : M S B :=
  fun s =>
    match m s with
    | (Ok a, s') => k a s'
    | (Raise e, s') => (Raise e, s')
    end.

(** [self.f]: read an attribute. *)
Definition attr {S A : Type} (f : S -> A) : M S A := fun s => (Ok (f s), s).

(** [self.f = v]: assign an attribute, [upd] being the record update. *)
Definition assign {S : Type} (upd : S -> S) : M S unit := fun s => (Ok tt, upd s).

(** An expression that may raise and does not touch the object. *)
Definition lift {S A : Type} (r : result A) : M S A := fun s => (r, s).

(** A computation that leaves the object as it found it. *)
Definition preserves_state {S A : Type} (m : M S A) : Prop :=
  forall s, snd (m s) = s.

Declare Scope py_scope.
Delimit Scope py_scope with py.
Notation "x <- m ;; k" := (bind m (fun x => k))
  (at level 61, m at next level, right associativity) : py_scope.
Notation "m ;;; k" := (bind m (fun _ => k))
  (at level 61, right associativity) : py_scope.

(** ** The arithmetic of Python numbers *)

Class Numeric (num : Type) : Type := {
  zero : num;
  one : num;
  add : num -> num -> num;
  sub : num -> num -> num;
  mul : num -> num -> num;
  (** the quotient as numpy computes it element-wise: it raises nothing (in
      binary64 a zero divisor gives an infinity or nan, with a warning) *)
  quot : num -> num -> num;
  neg : num -> num;
  sqrt : num -> num;
  absv : num -> num;
  (** Python's [==] *)
  eqb : num -> num -> bool
}.

(** The real numbers. *)
#[export] Instance Numeric_R : Numeric R := {
  zero := 0%R;
  one := 1%R;
  add := Rplus;
  sub := Rminus;
  mul := Rmult;
  quot := Rdiv;
  neg := Ropp;
  sqrt := R_sqrt.sqrt;
  absv := Rabs;
  eqb := fun a b => if Req_dec_T a b then true else false
}.

(** IEEE 754 binary64. *)
#[export] Instance Numeric_float : Numeric float := {
  zero := 0%float;
  one := 1%float;
  add := PrimFloat.add;
  sub := PrimFloat.sub;
  mul := PrimFloat.mul;
  quot := PrimFloat.div;
  neg := PrimFloat.opp;
  sqrt := PrimFloat.sqrt;
  absv := PrimFloat.abs;
  eqb := PrimFloat.eqb
}.

Section PythonNumbers.
Context {num : Type} `{Numeric num}.

(** [a / b] on Python scalars (true division): a zero divisor raises. *)
Definition truediv (a b : num) : result num :=
  if eqb b zero then Raise ZeroDivisionError else Ok (quot a b).

(** [a ** 2]. *)
Definition square (a : num) : num := mul a a.

(** [x, y = p]: unpacking a sequence into two names. *)
Definition unpack2 (p : list num) : result (num * num) :=
  match p with
  | [x; y] => Ok (x, y)
  | _ => Raise ValueError
  end.

(** [l[i]] on a Python list, for a non-negative index. *)
Definition index {A : Type} (l : list A) (i : nat) : result A :=
  match nth_error l i with
  | Some a => Ok a
  | None => Raise IndexError
  end.

End PythonNumbers.

(** [for a in l: acc = body(a, acc)]: a loop over a list that threads the
    value it builds; an exception ends it. *)
Fixpoint for_each {S A B : Type} (l : list A) (body : A -> B -> M S B)
    (acc : B) : M S B :=
  match l with
  | [] => ret acc
  | a :: l' => bind (body a acc) (fun acc' => for_each l' body acc')
  end.

(** [enumerate(l)]. *)
Definition enumerate {A : Type} (l : list A) : list (nat * A) :=
  combine (seq 0 (length l)) l.

(** * geoist/inversion/epic2d.py *)

Module epic2d.

Section Model.
Context {num : Type} `{Numeric num}.

(** ** numpy arrays, as far as the class uses them *)

(** [self.recs] is [np.array(recs)].  A list of coordinate pairs becomes a
    two-dimensional array of shape (N, 2), kept here as its list of rows;
    the empty Python list becomes a one-dimensional array of shape (0,). *)
Inductive ndarray : Type :=
| Arr1 (v : list num)
| Arr2 (rows : list (num * num)).

Definition np_array (recs : list (num * num)) : ndarray :=
  match recs with
  | [] => Arr1 []
  | _ :: _ => Arr2 recs
  end.

(** [len(a)]: the extent of the first axis. *)
Definition np_len (a : ndarray) : nat :=
  match a with
  | Arr1 v => length v
  | Arr2 rows => length rows
  end.

(** [a[:, j]]: a one-dimensional array has no second axis. *)
Definition column (a : ndarray) (j : nat) : result (list num) :=
  match a with
  | Arr1 _ => Raise IndexError
  | Arr2 rows =>
      match j with
      | 0 => Ok (map fst rows)
      | 1 => Ok (map snd rows)
      | _ => Raise IndexError
      end
  end.

(** [v - x], an array minus a scalar. *)
Definition vsubs (v : list num) (x : num) : list num :=
  map (fun a => sub a x) v.

(** [v ** 2]. *)
Definition vsquare (v : list num) : list num := map square v.

(** [a * v], a scalar times an array. *)
Definition scale (a : num) (v : list num) : list num := map (mul a) v.

(** [np.sqrt(v)]. *)
Definition np_sqrt (v : list num) : list num := map sqrt v.

(** An element-wise operation on two arrays; the class applies it only to
    arrays computed from the columns of [self.recs], of equal length. *)
Definition elementwise (f : num -> num -> num) (u v : list num) : list num :=
  map (fun ab => f (fst ab) (snd ab)) (combine u v).

Definition vadd : list num -> list num -> list num := elementwise add.
Definition vdiv : list num -> list num -> list num := elementwise quot.

(** [np.empty((n, m))]: an n-by-m matrix (a list of rows) of whatever the
    allocated memory holds, [garbage i j] at row i, column j. *)
Definition np_empty (garbage : nat -> nat -> num) (n m : nat) : list (list num) :=
  map (fun i => map (garbage i) (seq 0 m)) (seq 0 n).

(** [row[j] = a] for j within the row. *)
Fixpoint set_nth (row : list num) (j : nat) (a : num) : list num :=
  match row, j with
  | [], _ => []
  | _ :: r, 0 => a :: r
  | b :: r, S j' => b :: set_nth r j' a
  end.

(** numpy's broadcasting of a one-dimensional value to a column of n
    entries: it has n entries already, or it has a single one, which is
    repeated; any other length is a [ValueError]. *)
Definition broadcast_to (n : nat) (v : list num) : result (list num) :=
  if length v =? n then Ok v
  else
    match v with
    | [a] => Ok (repeat a n)
    | _ => Raise ValueError
    end.

(** [jac[:, j] = v] for [jac] of the given shape: the index is checked
    first, then [v] is broadcast to the column and stored. *)
Definition set_column (shape : nat * nat) (jac : list (list num)) (j : nat)
    (v : list num) : result (list (list num)) :=
  if snd shape <=? j then Raise IndexError
  else
    match broadcast_to (fst shape) v with
    | Ok v' => Ok (map (fun ra => set_nth (fst ra) j (snd ra)) (combine jac v'))
    | Raise e => Raise e
    end.

(** ** The class *)

(** The attributes the class reads: [data], [nparams], [islinear] and
    [ndata] belong to the base class [Misfit], the others are set by
    [Homogeneous.__init__]. *)
Record Homogeneous : Type := {
  data : list num;
  nparams : nat;
  islinear : bool;
  ndata : nat;
  recs : ndarray;
  vp : num;
  vs : num
}.

(** Modelled from the spec: the base-class constructor [Misfit.__init__] is
    not among the sources.  It keeps the observations, the number of
    parameters and the linearity flag, and [ndata] is the number of
    observations (the number of data rows of the Jacobian).  The attributes
    of the subclass are not assigned yet: they hold placeholders, which
    [Homogeneous.__init__] overwrites. *)
Definition Misfit_init (data : list num) (nparams : nat) (islinear : bool)
    : Homogeneous :=
  {| data := data; nparams := nparams; islinear := islinear;
     ndata := length data; recs := Arr1 []; vp := zero; vs := zero |}.

Definition set_recs (r : ndarray) (h : Homogeneous) : Homogeneous :=
  {| data := data h; nparams := nparams h; islinear := islinear h;
     ndata := ndata h; recs := r; vp := vp h; vs := vs h |}.

Definition set_vp (v : num) (h : Homogeneous) : Homogeneous :=
  {| data := data h; nparams := nparams h; islinear := islinear h;
     ndata := ndata h; recs := recs h; vp := v; vs := vs h |}.

Definition set_vs (v : num) (h : Homogeneous) : Homogeneous :=
  {| data := data h; nparams := nparams h; islinear := islinear h;
     ndata := ndata h; recs := recs h; vp := vp h; vs := v |}.

(** [Homogeneous(ttres, recs, vp, vs)]: the base class is initialised with
    [nparams=2], then the three assignments follow. *)
Definition __init__ (ttres : list num) (recs : list (num * num)) (vp vs : num)
    : Homogeneous :=
  let self := Misfit_init ttres 2 false in
  let self := set_recs (np_array recs) self in
  let self := set_vp vp self in
  set_vs vs self.

Local Open Scope py_scope.

(** [alpha = 1/self.vs - 1/self.vp], the velocities being Python numbers
    ([int] or [float], as the docstring passes them), whose division raises
    on a zero divisor.  A zero held in a numpy scalar would give an infinity
    instead: what is proved below of results assumes nonzero velocities. *)
Definition alpha : M Homogeneous num :=
  s <- attr vs ;;
  a <- lift (truediv one s) ;;
  p <- attr vp ;;
  b <- lift (truediv one p) ;;
  ret (sub a b).

(** [np.sqrt((self.recs[:, 0] - x)**2 + (self.recs[:, 1] - y)**2)]. *)
Definition distances (x y : num) : M Homogeneous (list num) :=
  r <- attr recs ;;
  c0 <- lift (column r 0) ;;
  r <- attr recs ;;
  c1 <- lift (column r 1) ;;
  ret (np_sqrt (vadd (vsquare (vsubs c0 x)) (vsquare (vsubs c1 y)))).

Definition predicted (p : list num) : M Homogeneous (list num) :=
  xy <- lift (unpack2 p) ;;
  a <- alpha ;;
  d <- distances (fst xy) (snd xy) ;;
  ret (scale a d).

(** [garbage] is the content of the memory that [np.empty] hands out. *)
Definition jacobian (garbage : nat -> nat -> num) (p : list num)
    : M Homogeneous (list (list num)) :=
  xy <- lift (unpack2 p) ;;
  let x := fst xy in
  let y := snd xy in
  a <- alpha ;;
  sqrt_ <- distances x y ;;
  n <- attr ndata ;;
  m <- attr nparams ;;
  let jac := np_empty garbage n m in
  r <- attr recs ;;
  c0 <- lift (column r 0) ;;
  jac <- lift (set_column (n, m) jac 0 (vdiv (scale (neg a) (vsubs c0 x)) sqrt_)) ;;
  r <- attr recs ;;
  c1 <- lift (column r 1) ;;
  jac <- lift (set_column (n, m) jac 1 (vdiv (scale (neg a) (vsubs c1 y)) sqrt_)) ;;
  ret jac.

(** ** The formulas of the class docstring *)

(** The distance of the receiver [r] from (x, y). *)
Definition distance (x y : num) (r : num * num) : num :=
  sqrt (add (square (sub (fst r) x)) (square (sub (snd r) y))).

(** The row of the Jacobian for the receiver [r]. *)
Definition jacobian_row (a x y : num) (r : num * num) : list num :=
  [quot (mul (neg a) (sub (fst r) x)) (distance x y r);
   quot (mul (neg a) (sub (snd r) y)) (distance x y r)].

(** ** Clients of the two methods *)

(** Element i of [predicted((x, y))] as a function of the epicenter. *)
Definition predicted_at (h : Homogeneous) (i : nat) (x y : num) : num :=
  match fst (predicted [x; y] h) with
  | Ok pred => nth i pred zero
  | Raise _ => zero
  end.

(** A call of one of the two methods, and the object after a sequence of
    calls, whatever each call returns or raises. *)
Inductive call : Type :=
| Predicted (p : list num)
| Jacobian (garbage : nat -> nat -> num) (p : list num).

Definition after_call (h : Homogeneous) (c : call) : Homogeneous :=
  match c with
  | Predicted p => snd (predicted p h)
  | Jacobian g p => snd (jacobian g p h)
  end.

Definition after_calls (cs : list call) (h : Homogeneous) : Homogeneous :=
  fold_left after_call cs h.

(** Noiseless synthetic data: what the forward model predicts at [src]. *)
Definition synthetic (recs : list (num * num)) (vp vs : num) (src : num * num)
    : list num :=
  match fst (predicted [fst src; snd src] (__init__ [] recs vp vs)) with
  | Ok d => d
  | Raise _ => []
  end.

(** [sum(u * v)], accumulated from the left. *)
Definition dot (u v : list num) : num :=
  fold_left (fun acc ab => add acc (mul (fst ab) (snd ab))) (combine u v) zero.

(** Modelled from the spec: the optimizer ([OptimizerMixin], the fit loop)
    is not among the sources.  This is one step of the standard
    Gauss-Newton iteration for the misfit of two parameters: with residual
    r = data - predicted(p) and Jacobian J at p, the estimate moves by the
    solution of (J^T J) dp = J^T r, solved by Cramer's rule. *)
Definition gauss_newton_step (garbage : nat -> nat -> num) (p : num * num)
    : M Homogeneous (num * num) :=
  pred <- predicted [fst p; snd p] ;;
  jac <- jacobian garbage [fst p; snd p] ;;
  d <- attr data ;;
  let r := elementwise sub d pred in
  let j0 := map (fun row => nth 0 row zero) jac in
  let j1 := map (fun row => nth 1 row zero) jac in
  let a11 := dot j0 j0 in
  let a12 := dot j0 j1 in
  let a22 := dot j1 j1 in
  let b1 := dot j0 r in
  let b2 := dot j1 r in
  let det := sub (mul a11 a22) (mul a12 a12) in
  ret (add (fst p) (quot (sub (mul a22 b1) (mul a12 b2)) det),
       add (snd p) (quot (sub (mul a11 b2) (mul a12 b1)) det)).

(** Modelled from the spec: the Gauss-Newton loop, [n] iterations from the
    initial estimate [p]. *)
Fixpoint gauss_newton (garbage : nat -> nat -> num) (n : nat) (p : num * num)
    : M Homogeneous (num * num) :=
  match n with
  | 0 => ret p
  | S n' => p' <- gauss_newton_step garbage p ;; gauss_newton garbage n' p'
  end.

End Model.

End epic2d.

(** * geoist/snoopy/algorithms/anomaly_detector_algorithms/derivative_detector.py *)

Module derivative_detector.

Section Model.
Context {num : Type} `{Numeric num}.

(** ** Python dictionaries keyed by timestamps *)

(** A dictionary as its items in insertion order, with one item per key. *)
Definition dict : Type := list (num * num).

(** [d[k] = v]: the value of an existing key is replaced in place, a new
    key is added at the end. *)
Fixpoint dict_set (k v : num) (d : dict) : dict :=
  match d with
  | [] => [(k, v)]
  | (k', v') :: d' =>
      if eqb k' k then (k', v) :: d' else (k', v') :: dict_set k v d'
  end.

(** [d[k]]. *)
Fixpoint dict_get (k : num) (d : dict) : result num :=
  match d with
  | [] => Raise KeyError
  | (k', v') :: d' => if eqb k' k then Ok v' else dict_get k d'
  end.

Definition dict_keys (d : dict) : list num := map fst d.
Definition dict_values (d : dict) : list num := map snd d.

(** ** The class *)

(** The attributes the two methods read and write.  [time_series_items] is
    the list of (timestamp, value) pairs of the time series. *)
Record DerivativeDetector : Type := {
  smoothing_factor : num;
  time_series_items : list (num * num);
  derivatives : list num;
  anom_scores : dict
}.

Definition set_derivatives (ds : list num) (self : DerivativeDetector)
    : DerivativeDetector :=
  {| smoothing_factor := smoothing_factor self;
     time_series_items := time_series_items self;
     derivatives := ds;
     anom_scores := anom_scores self |}.

Definition set_anom_scores (sc : dict) (self : DerivativeDetector)
    : DerivativeDetector :=
  {| smoothing_factor := smoothing_factor self;
     time_series_items := time_series_items self;
     derivatives := derivatives self;
     anom_scores := sc |}.

Local Open Scope py_scope.

(** [(value - pre_value) / td if td != 0 else value - pre_value], the
    division being Python's, which raises on a zero divisor. *)
Definition slope (value pre_value td : num) : result num :=
  if negb (eqb td zero) then truediv (sub value pre_value) td
  else Ok (sub value pre_value).

(** The body of the loop of [_compute_derivatives] for the enumerated item
    [(i, (timestamp, value))]. *)
Definition derivative_body (item : nat * (num * num)) (derivatives : list num)
    : M DerivativeDetector (list num) :=
  let i := fst item in
  let timestamp := fst (snd item) in
  let value := snd (snd item) in
  if 0 <? i then
    items <- attr time_series_items ;;
    pre_item <- lift (index items (i - 1)) ;;
    let pre_timestamp := fst pre_item in
    let pre_value := snd pre_item in
    let td := sub timestamp pre_timestamp in
    derivative <- lift (slope value pre_value td) ;;
    let derivative := absv derivative in
    ret (derivatives ++ [derivative])
  else ret derivatives.

(** [if derivatives: derivatives.insert(0, derivatives[0])]. *)
Definition insert_first (derivatives : list num) : list num :=
  match derivatives with
  | [] => []
  | d :: _ => d :: derivatives
  end.

Definition _compute_derivatives : M DerivativeDetector unit :=
  items <- attr time_series_items ;;
  derivatives <- for_each (enumerate items) derivative_body [] ;;
  assign (set_derivatives (insert_first derivatives)).

Section Collaborators.
(** What the class takes from the rest of the package:
    [utils.compute_ema], [numpy.std], [self._denoise_scores] of the base
    class and the constructor [TimeSeries]. *)
Variable compute_ema : num -> list num -> list num.
Variable numpy_std : list num -> num.
Variable _denoise_scores : dict -> dict.
Variable TimeSeries : dict -> dict.

(** The body of the first loop of [_set_scores]:
    [anom_scores[timestamp] = abs(self.derivatives[i] - derivatives_ema[i])]. *)
Definition score_body (derivatives_ema : list num) (item : nat * (num * num))
    (scores : dict) : M DerivativeDetector dict :=
  let i := fst item in
  let timestamp := fst (snd item) in
  ds <- attr derivatives ;;
  d <- lift (index ds i) ;;
  e <- lift (index derivatives_ema i) ;;
  ret (dict_set timestamp (absv (sub d e)) scores).

(** The body of the second loop: [anom_scores[timestamp] /= stdev]. *)
Definition normalize_body (stdev : num) (timestamp : num) (scores : dict)
    : M DerivativeDetector dict :=
  v <- lift (dict_get timestamp scores) ;;
  q <- lift (truediv v stdev) ;;
  ret (dict_set timestamp q scores).

(** The scores before normalisation, after both the derivatives and their
    moving average are computed. *)
Definition raw_scores : M DerivativeDetector dict :=
  _compute_derivatives ;;;
  sf <- attr smoothing_factor ;;
  ds <- attr derivatives ;;
  let derivatives_ema := compute_ema sf ds in
  items <- attr time_series_items ;;
  for_each (enumerate items) (score_body derivatives_ema) [].

(** [if stdev: for timestamp in anom_scores.keys(): ...]; a number is true
    when it is not zero. *)
Definition normalized (stdev : num) (scores : dict) : M DerivativeDetector dict :=
  if negb (eqb stdev zero) then
    for_each (dict_keys scores) (normalize_body stdev) scores
  else ret scores.

Definition _set_scores : M DerivativeDetector unit :=
  scores <- raw_scores ;;
  let stdev := numpy_std (dict_values scores) in
  scores <- normalized stdev scores ;;
  assign (set_anom_scores (TimeSeries (_denoise_scores scores))).

End Collaborators.

(** ** What the derivatives are *)

(** The absolute rate of change between two consecutive items. *)
Definition rate (pre cur : num * num) : num :=
  let td := sub (fst cur) (fst pre) in
  absv (if negb (eqb td zero) then quot (sub (snd cur) (snd pre)) td
        else sub (snd cur) (snd pre)).

(** The rates along a series that follows the item [pre]. *)
Fixpoint rates (pre : num * num) (l : list (num * num)) : list num :=
  match l with
  | [] => []
  | cur :: l' => rate pre cur :: rates cur l'
  end.

End Model.

(** [DerivativeDetector(time_series, smoothing_factor=...)]: the smoothing
    factor is the given one unless it is missing or zero, then the
    package's default; no derivative and no score is computed yet. *)
Definition __init__ {num : Type} `{Numeric num}
    (DEFAULT_DERI_SMOOTHING_FACTOR : num) (time_series : list (num * num))
    (smoothing_factor : option num) : DerivativeDetector :=
  {| smoothing_factor :=
       match smoothing_factor with
       | Some f => if eqb f zero then DEFAULT_DERI_SMOOTHING_FACTOR else f
       | None => DEFAULT_DERI_SMOOTHING_FACTOR
       end;
     time_series_items := time_series;
     derivatives := [];
     anom_scores := [] |}.

End derivative_detector.

(** * The example of the class docstring *)

(** Receivers (5, 0), (5, 10), (10, 0), true source (5, 5), Vp = 2, Vs = 1,
    in binary64, with the noiseless data the forward model generates at the
    source. *)
Definition receivers : list (float * float) :=
  [(5, 0); (5, 10); (10, 0)]%float.

Definition solver : epic2d.Homogeneous :=
  epic2d.__init__ (epic2d.synthetic receivers 2 1 (5, 5))%float receivers
    2%float 1%float.

(** Modelled from the spec: [ttime2d.straight] is not among the sources.
    In the homogeneous medium of the docstring the travel time of a wave
    along the straight ray from the source to a receiver is their distance
    divided by the wave's velocity. *)
Definition straight {num : Type} `{Numeric num} (v : num) (src : num * num)
    (recs : list (num * num)) : list num :=
  map (fun r =>
         quot (sqrt (add (mul (sub (fst r) (fst src)) (sub (fst r) (fst src)))
                         (mul (sub (snd r) (snd src)) (sub (snd r) (snd src)))))
              v)
      recs.

(** The docstring's inverse problem: [ttres = stime - ptime], the S minus P
    travel-time residuals of the source (5, 5), handed to the class. *)
Definition docstring_problem : epic2d.Homogeneous :=
  epic2d.__init__
    (epic2d.elementwise sub (straight 1 (5, 5) receivers)
                            (straight 2 (5, 5) receivers))%float
    receivers 2%float 1%float.



(** One receiver and three observations. *)
Definition lone_receiver : epic2d.Homogeneous :=
  epic2d.__init__ [1; 2; 3]%float [(0, 0)]%float 2%float 1%float.

(** Two readings with the same timestamp, over the real numbers. *)
Definition two_readings : derivative_detector.DerivativeDetector :=
  derivative_detector.__init__ (1 / 5)%R [(1, 2); (1, 5)]%R None.

(** A binary64 number that is a zero or not a number. *)
Definition zero_or_nan (f : float) : Prop :=
  match Prim2SF f with
  | S754_zero _ | S754_nan => True
  | _ => False
  end.

(** A binary64 number with the sign bit [sx], a zero or not a number. *)
Definition sign_or_zero (sx : bool) (r : spec_float) : Prop :=
  match r with
  | S754_zero _ | S754_nan => True
  | S754_infinity s | S754_finite s _ _ => s = sx
  end.

(** A binary64 number that does not compare below zero: a zero, nan, or an
    infinity or finite number with a clear sign bit. *)
Definition nonneg_or_nan (f : float) : Prop :=
  sign_or_zero false (Prim2SF f).

(** Three readings in binary64, two of them with the same timestamp. *)
Definition three_readings : derivative_detector.DerivativeDetector :=
  derivative_detector.__init__ 0.25%float [(1, 2); (1, 5); (3, 9)]%float None.

(** Two readings with different timestamps, over the real numbers. *)
Definition rising_readings : derivative_detector.DerivativeDetector :=
  derivative_detector.__init__ (1 / 5)%R [(1, 2); (3, 9)]%R None.

(** The list that [_compute_derivatives] stores for the given items. *)
Definition derivatives_of {num : Type} `{Numeric num}
    (items : list (num * num)) : list num :=
  match items with
  | [] => []
  | pre :: rest =>
      derivative_detector.insert_first (derivative_detector.rates pre rest)
  end.

(** * geoist/magmod/data/__init__.py *)

Module magmod_data.

Import Ascii String.
Local Open Scope string_scope.

(** [b.startswith('/')]. *)
Definition starts_with_sep (b : string) : bool :=
  match b with
  | String c _ => Ascii.eqb c "/"%char
  | EmptyString => false
  end.

(** [a.endswith('/')]. *)
Fixpoint ends_with_sep (a : string) : bool :=
  match a with
  | EmptyString => false
  | String c EmptyString => Ascii.eqb c "/"%char
  | String _ a' => ends_with_sep a'
  end.

(** [os.path.join(a, b)] of two components, as [posixpath] defines it: an
    absolute [b] replaces [a]; otherwise [b] is appended, after a separator
    unless [a] is empty or ends with one. *)
Definition join (a b : string) : string :=
  if starts_with_sep b then b
  else if (String.eqb a "" || ends_with_sep a)%bool then a ++ b
  else a ++ "/" ++ b.

Section Registry.
(** [_DIRNAME = dirname(__file__)], the directory of the package. *)
Variable _DIRNAME : string.

Definition WMM_2015 := join _DIRNAME "WMM2015v2.COF".
Definition WMM_2020 := join _DIRNAME "WMM2020.COF".
Definition EMM_2010_STATIC := join _DIRNAME "EMM-720_V3p0_static.cof".
Definition EMM_2010_SECVAR := join _DIRNAME "EMM-720_V3p0_secvar.cof".
Definition EMM_2017_STATIC := join _DIRNAME "EMM2017.COF".
Definition EMM_2017_SECVAR := join _DIRNAME "EMM2017SV.COF".
Definition CHAOS6_CORE_X8 := join _DIRNAME "CHAOS-6-x8_core.shc".
Definition CHAOS6_CORE_LATEST := CHAOS6_CORE_X8.
Definition CHAOS6_STATIC := join _DIRNAME "CHAOS-6_static.shc".
Definition CHAOS7_CORE := join _DIRNAME "CHAOS-7.2_core.shc".
Definition CHAOS7_CORE_LATEST := CHAOS7_CORE.
Definition CHAOS7_STATIC := join _DIRNAME "CHAOS-7.2_static.shc".
Definition IGRF11 := join _DIRNAME "igrf11coeffs.txt".
Definition IGRF12 := join _DIRNAME "IGRF12.shc".
Definition IGRF13 := join _DIRNAME "igrf13.COF".
Definition SIFM := join _DIRNAME "SIFM.shc".
Definition LCS1 := join _DIRNAME "LCS-1.shc".
Definition MF7 := join _DIRNAME "MF7.shc".
Definition DIFI3 :=
  join _DIRNAME "SW_OPER_MIO_SHAi2D_20131201T000000_20170129T235959_0301.txt".
Definition DIFI4 :=
  join _DIRNAME "SW_OPER_MIO_SHAi2D_20131201T000000_20171231T235959_0401.txt".

Definition APEX_2015 := join _DIRNAME "apexsh_1995-2015.txt".
Definition APEX_2020 := join _DIRNAME "apexsh_1980-2020.txt".
Definition APEX := APEX_2020.

(** The constants of the module that are not aliases of another one, in
    the order of the file. *)
Definition files : list string :=
  [WMM_2015; WMM_2020; EMM_2010_STATIC; EMM_2010_SECVAR; EMM_2017_STATIC;
   EMM_2017_SECVAR; CHAOS6_CORE_X8; CHAOS6_STATIC; CHAOS7_CORE; CHAOS7_STATIC;
   IGRF11; IGRF12; IGRF13; SIFM; LCS1; MF7; DIFI3; DIFI4; APEX_2015; APEX_2020].

End Registry.

(** The file names that the constants join to the directory. *)
Definition file_names : list string :=
  ["WMM2015v2.COF"; "WMM2020.COF"; "EMM-720_V3p0_static.cof";
   "EMM-720_V3p0_secvar.cof"; "EMM2017.COF"; "EMM2017SV.COF";
   "CHAOS-6-x8_core.shc"; "CHAOS-6_static.shc"; "CHAOS-7.2_core.shc";
   "CHAOS-7.2_static.shc"; "igrf11coeffs.txt"; "IGRF12.shc"; "igrf13.COF";
   "SIFM.shc"; "LCS-1.shc"; "MF7.shc";
   "SW_OPER_MIO_SHAi2D_20131201T000000_20170129T235959_0301.txt";
   "SW_OPER_MIO_SHAi2D_20131201T000000_20171231T235959_0401.txt";
   "apexsh_1995-2015.txt"; "apexsh_1980-2020.txt"].

(** What [join] puts before a relative name. *)
Definition directory_prefix (a : string) : string :=
  if (String.eqb a "" || ends_with_sep a)%bool then a else a ++ "/".

End magmod_data.

(** * Properties *)

Unset Implicit Arguments.

(** ** The monad *)

Section MonadFacts.
Context {S : Type}.

Lemma preserves_ret {A : Type} (a : A) : preserves_state (S := S) (ret a).
Proof. intros s. reflexivity. Qed.

Lemma preserves_attr {A : Type} (f : S -> A) : preserves_state (attr f).
Proof. intros s. reflexivity. Qed.

Lemma preserves_lift {A : Type} (r : result A) :
  preserves_state (S := S) (lift r).
Proof. intros s. reflexivity. Qed.

Lemma preserves_bind {A B : Type} (m : M S A) (k : A -> M S B) :
  preserves_state m -> (forall a, preserves_state (k a)) ->
  preserves_state (bind m k).
Proof.
  intros Hm Hk s. unfold bind.
  specialize (Hm s). destruct (m s) as [[a|e] s']; simpl in Hm; subst s'.
  - apply Hk.
  - reflexivity.
Qed.

Lemma bind_ok {A B : Type} (m : M S A) (k : A -> M S B) (s s' : S) (a : A) :
  m s = (Ok a, s') -> bind m k s = k a s'.
Proof. intros E. unfold bind. now rewrite E. Qed.

Lemma bind_raise {A B : Type} (m : M S A) (k : A -> M S B) (s s' : S) (e : exn) :
  m s = (Raise e, s') -> bind m k s = (Raise e, s').
Proof. intros E. unfold bind. now rewrite E. Qed.

Lemma bind_assoc {A B C : Type} (m : M S A) (k : A -> M S B)
    (k' : B -> M S C) (s : S) :
  bind (bind m k) k' s = bind m (fun a => bind (k a) k') s.
Proof. unfold bind. now destruct (m s) as [[a|e] s']. Qed.

Lemma bind_ext {A B : Type} (m : M S A) (k k' : A -> M S B) (s : S) :
  (forall a s', k a s' = k' a s') -> bind m k s = bind m k' s.
Proof. intros E. unfold bind. destruct (m s) as [[a|e] s']; auto. Qed.

(** A loop raises [e] only if its body can. *)
Lemma for_each_never {A B : Type} (e : exn) (body : A -> B -> M S B) :
  (forall a acc s, fst (body a acc s) <> Raise e) ->
  forall l acc s, fst (for_each l body acc s) <> Raise e.
Proof.
  intros Hbody l. induction l as [|a l IH]; intros acc s; simpl.
  - discriminate.
  - unfold bind. specialize (Hbody a acc s).
    destruct (body a acc s) as [[acc'|e'] s']; simpl in *.
    + apply IH.
    + exact Hbody.
Qed.

End MonadFacts.

(** Walks through a method's binds. *)
Ltac frame :=
  repeat first
    [ apply preserves_ret | apply preserves_attr | apply preserves_lift
    | apply preserves_bind; [| intros ? ] ].

Section PythonNumbersFacts.
Context {num : Type} `{Numeric num}.

Lemma truediv_ok (a b : num) :
  eqb b zero = false -> truediv a b = Ok (quot a b).
Proof. intros Hb. unfold truediv. now rewrite Hb. Qed.

Lemma truediv_zero (a b : num) :
  eqb b zero = true -> truediv a b = Raise ZeroDivisionError.
Proof. intros Hb. unfold truediv. now rewrite Hb. Qed.

Lemma unpack2_length (p : list num) :
  length p <> 2 -> unpack2 p = Raise ValueError.
Proof.
  destruct p as [|a [|b [|c p]]]; simpl; intros Hl; try reflexivity.
  now contradiction Hl.
Qed.

End PythonNumbersFacts.

(** ** The epicenter forward model, in any arithmetic *)

Section Epic2dFacts.
Import epic2d.
Context {num : Type} `{Numeric num}.

Lemma alpha_preserves : preserves_state alpha.
Proof. unfold alpha. frame. Qed.

Lemma distances_preserves (x y : num) : preserves_state (distances x y).
Proof. unfold distances. frame. Qed.

Lemma predicted_preserves (p : list num) : preserves_state (predicted p).
Proof.
  unfold predicted. frame; auto using alpha_preserves, distances_preserves.
Qed.

Lemma jacobian_preserves (g : nat -> nat -> num) (p : list num) :
  preserves_state (jacobian g p).
Proof.
  unfold jacobian. frame; auto using alpha_preserves, distances_preserves.
Qed.

Lemma after_calls_same (cs : list call) (h : Homogeneous) :
  after_calls cs h = h.
Proof.
  unfold after_calls. induction cs as [|c cs IH]; simpl.
  - reflexivity.
  - destruct c as [p|g p]; simpl.
    + now rewrite predicted_preserves.
    + now rewrite jacobian_preserves.
Qed.

(** *** What the methods return *)

Lemma elementwise_map {A : Type} (f : num -> num -> num) (u v : A -> num)
    (l : list A) :
  elementwise f (map u l) (map v l) = map (fun r => f (u r) (v r)) l.
Proof.
  unfold elementwise. induction l as [|r l IH]; simpl.
  - reflexivity.
  - now rewrite IH.
Qed.

Lemma alpha_run (h : Homogeneous) :
  eqb (vs h) zero = false -> eqb (vp h) zero = false ->
  alpha h = (Ok (sub (quot one (vs h)) (quot one (vp h))), h).
Proof.
  intros Hs Hp. unfold alpha, bind, attr, lift, ret.
  now rewrite (truediv_ok _ _ Hs), (truediv_ok _ _ Hp).
Qed.

Lemma alpha_zero_vs (h : Homogeneous) :
  eqb (vs h) zero = true -> alpha h = (Raise ZeroDivisionError, h).
Proof.
  intros Hs. unfold alpha, bind, attr, lift.
  now rewrite (truediv_zero _ _ Hs).
Qed.

Lemma distances_run (h : Homogeneous) (rows : list (num * num)) (x y : num) :
  recs h = Arr2 rows ->
  distances x y h = (Ok (map (distance x y) rows), h).
Proof.
  intros Hr. unfold distances, bind, attr, lift, ret. rewrite Hr. simpl.
  unfold np_sqrt, vadd, vsquare, vsubs. rewrite !map_map.
  rewrite elementwise_map, map_map. reflexivity.
Qed.

Lemma distances_no_axis (h : Homogeneous) (v : list num) (x y : num) :
  recs h = Arr1 v -> distances x y h = (Raise IndexError, h).
Proof.
  intros Hr. unfold distances, bind, attr, lift. now rewrite Hr.
Qed.

Lemma predicted_run (h : Homogeneous) (rows : list (num * num)) (x y : num) :
  recs h = Arr2 rows ->
  eqb (vs h) zero = false -> eqb (vp h) zero = false ->
  predicted [x; y] h =
    (Ok (map (fun r => mul (sub (quot one (vs h)) (quot one (vp h)))
                           (distance x y r)) rows), h).
Proof.
  intros Hr Hs Hp. unfold predicted.
  rewrite (bind_ok _ _ h h (x, y)) by reflexivity.
  rewrite (bind_ok _ _ h _ _ (alpha_run h Hs Hp)).
  rewrite (bind_ok _ _ h _ _ (distances_run h rows x y Hr)).
  unfold ret, scale. now rewrite map_map.
Qed.

Lemma predicted_bad_length (h : Homogeneous) (p : list num) :
  length p <> 2 -> predicted p h = (Raise ValueError, h).
Proof.
  intros Hl. unfold predicted.
  apply bind_raise. unfold lift. now rewrite unpack2_length.
Qed.

(** Filling the two columns of a fresh matrix leaves nothing of what the
    memory held. *)
Lemma fill_two_columns (g : nat -> nat -> num) (v0 v1 : list num) :
  forall s n, length v0 = n -> length v1 = n ->
  map (fun ra => set_nth (fst ra) 1 (snd ra))
      (combine (map (fun ra => set_nth (fst ra) 0 (snd ra))
                    (combine (map (fun i => map (g i) (seq 0 2)) (seq s n)) v0))
               v1)
  = map (fun ab => [fst ab; snd ab]) (combine v0 v1).
Proof.
  revert v1. induction v0 as [|a v0 IH]; intros v1 s n H0 H1.
  - simpl in H0. subst n. reflexivity.
  - destruct n as [|n]; [discriminate|].
    destruct v1 as [|b v1]; [discriminate|]. simpl.
    f_equal. apply IH; simpl in *; lia.
Qed.

Lemma broadcast_to_length (n : nat) (v v' : list num) :
  broadcast_to n v = Ok v' -> length v' = n.
Proof.
  unfold broadcast_to. destruct (length v =? n) eqn:E.
  - intros [= <-]. now apply Nat.eqb_eq.
  - destruct v as [|a [|b v]]; try discriminate.
    intros [= <-]. apply repeat_length.
Qed.

Lemma broadcast_to_same (n : nat) (v : list num) :
  length v = n -> broadcast_to n v = Ok v.
Proof. intros E. unfold broadcast_to. now rewrite (proj2 (Nat.eqb_eq _ _) E). Qed.

(** The two column assignments of [jacobian] on a fresh two-column matrix. *)
Lemma set_both_columns (g : nat -> nat -> num) (n : nat) (v0 v1 : list num) :
  match set_column (n, 2) (np_empty g n 2) 0 v0 with
  | Ok jac => set_column (n, 2) jac 1 v1
  | Raise e => Raise e
  end =
  match broadcast_to n v0 with
  | Ok v0' =>
      match broadcast_to n v1 with
      | Ok v1' => Ok (map (fun ab => [fst ab; snd ab]) (combine v0' v1'))
      | Raise e => Raise e
      end
  | Raise e => Raise e
  end.
Proof.
  unfold set_column. simpl.
  destruct (broadcast_to n v0) as [v0'|e] eqn:E0; [|reflexivity].
  destruct (broadcast_to n v1) as [v1'|e] eqn:E1; [|reflexivity].
  f_equal. unfold np_empty.
  apply fill_two_columns; eauto using broadcast_to_length.
Qed.

Lemma combine_maps {A : Type} (u v : A -> num) (l : list A) :
  map (fun ab => [fst ab; snd ab]) (combine (map u l) (map v l))
  = map (fun r => [u r; v r]) l.
Proof.
  induction l as [|r l IH]; simpl.
  - reflexivity.
  - now rewrite IH.
Qed.

(** [jacobian] at a two-dimensional receiver array, for an instance with
    two parameters: the two columns are broadcast to [ndata] rows. *)
Lemma jacobian_closed (g : nat -> nat -> num) (h : Homogeneous)
    (rows : list (num * num)) (x y : num) :
  recs h = Arr2 rows -> nparams h = 2 ->
  eqb (vs h) zero = false -> eqb (vp h) zero = false ->
  let a := sub (quot one (vs h)) (quot one (vp h)) in
  jacobian g [x; y] h =
    (match broadcast_to (ndata h)
             (map (fun r => quot (mul (neg a) (sub (fst r) x)) (distance x y r))
                  rows) with
     | Ok v0' =>
         match broadcast_to (ndata h)
                 (map (fun r => quot (mul (neg a) (sub (snd r) y)) (distance x y r))
                      rows) with
         | Ok v1' => Ok (map (fun ab => [fst ab; snd ab]) (combine v0' v1'))
         | Raise e => Raise e
         end
     | Raise e => Raise e
     end, h).
Proof.
  intros Hr Hm Hs Hp a. unfold jacobian.
  rewrite (bind_ok _ _ h h (x, y)) by reflexivity.
  rewrite (bind_ok _ _ h _ _ (alpha_run h Hs Hp)).
  cbv zeta. simpl fst. simpl snd.
  rewrite (bind_ok _ _ h _ _ (distances_run h rows x y Hr)).
  unfold bind, attr, lift, ret. rewrite Hr, Hm. simpl column.
  unfold vdiv, scale, vsubs. rewrite !map_map, !elementwise_map.
  fold a. rewrite <- (set_both_columns g).
  destruct (set_column _ _ 0 _) as [jac0|e]; [|reflexivity].
  now destruct (set_column _ _ 1 _).
Qed.

Lemma jacobian_run (g : nat -> nat -> num) (h : Homogeneous)
    (rows : list (num * num)) (x y : num) :
  recs h = Arr2 rows -> ndata h = length rows -> nparams h = 2 ->
  eqb (vs h) zero = false -> eqb (vp h) zero = false ->
  jacobian g [x; y] h =
    (Ok (map (jacobian_row (sub (quot one (vs h)) (quot one (vp h))) x y) rows), h).
Proof.
  intros Hr Hn Hm Hs Hp. rewrite (jacobian_closed g h rows x y Hr Hm Hs Hp). cbv zeta.
  rewrite !broadcast_to_same by (now rewrite length_map).
  now rewrite combine_maps.
Qed.

Lemma jacobian_bad_length (g : nat -> nat -> num) (h : Homogeneous)
    (p : list num) :
  length p <> 2 -> jacobian g p h = (Raise ValueError, h).
Proof.
  intros Hl. unfold jacobian.
  apply bind_raise. unfold lift. now rewrite unpack2_length.
Qed.

(** With two parameters, what [jacobian] returns or raises does not depend
    on what [np.empty] hands out, and a matrix it returns has [ndata] rows
    of two entries. *)
Lemma jacobian_outcome (h : Homogeneous) (p : list num) :
  nparams h = 2 ->
  exists r : result (list (list num)),
    (forall g, jacobian g p h = (r, h)) /\
    (forall jac, r = Ok jac ->
       length jac = ndata h /\ Forall (fun row => length row = 2) jac).
Proof.
  intros Hm.
  destruct (Nat.eq_dec (length p) 2) as [Hl|Hl].
  2: { exists (Raise ValueError). split; [|discriminate].
       intros g. now apply jacobian_bad_length. }
  destruct p as [|x [|y [|z p]]]; try discriminate. clear Hl.
  destruct (eqb (vs h) zero) eqn:Hs.
  { exists (Raise ZeroDivisionError). split; [|discriminate].
    intros g. unfold jacobian.
    rewrite (bind_ok _ _ h h (x, y)) by reflexivity.
    now rewrite (bind_raise _ _ h _ _ (alpha_zero_vs h Hs)). }
  destruct (eqb (vp h) zero) eqn:Hp.
  { exists (Raise ZeroDivisionError). split; [|discriminate].
    intros g.
    assert (Ha : alpha h = (Raise ZeroDivisionError, h)).
    { unfold alpha, bind, attr, lift.
      now rewrite (truediv_ok _ _ Hs), (truediv_zero _ _ Hp). }
    unfold jacobian.
    rewrite (bind_ok _ _ h h (x, y)) by reflexivity.
    now rewrite (bind_raise _ _ h _ _ Ha). }
  destruct (recs h) as [v|rows] eqn:Hr.
  { exists (Raise IndexError). split; [|discriminate].
    intros g. unfold jacobian.
    rewrite (bind_ok _ _ h h (x, y)) by reflexivity.
    rewrite (bind_ok _ _ h _ _ (alpha_run h Hs Hp)). cbv zeta.
    now rewrite (bind_raise _ _ h _ _ (distances_no_axis h v x y Hr)). }
  eexists. split.
  { intros g. exact (jacobian_closed g h rows x y Hr Hm Hs Hp). }
  intros jac.
  destruct (broadcast_to (ndata h) _) as [v0'|e] eqn:E0; [|discriminate].
  destruct (broadcast_to (ndata h)
              (map (fun r => quot (mul _ (sub (snd r) y)) _) rows))
    as [v1'|e] eqn:E1; [|discriminate].
  intros [= <-].
  apply broadcast_to_length in E0, E1. split.
  - rewrite length_map, length_combine. lia.
  - apply Forall_forall. intros row Hin.
    apply in_map_iff in Hin. destruct Hin as [ab [<- _]]. reflexivity.
Qed.

(** What [np.empty] hands out does not show in the result. *)
Lemma jacobian_garbage (g1 g2 : nat -> nat -> num) (h : Homogeneous)
    (p : list num) :
  nparams h = 2 -> jacobian g1 p h = jacobian g2 p h.
Proof.
  intros Hm. destruct (jacobian_outcome h p Hm) as [r [Hr _]].
  now rewrite !Hr.
Qed.

(** Whatever [jacobian] returns has [ndata] rows of two entries. *)
Lemma jacobian_shape (g : nat -> nat -> num) (h : Homogeneous)
    (p : list num) (jac : list (list num)) :
  nparams h = 2 -> fst (jacobian g p h) = Ok jac ->
  length jac = ndata h /\ Forall (fun row => length row = 2) jac.
Proof.
  intros Hm. destruct (jacobian_outcome h p Hm) as [r [Hr Hshape]].
  rewrite Hr. exact (Hshape jac).
Qed.

Lemma predicted_at_run (h : Homogeneous) (rows : list (num * num))
    (i : nat) (r : num * num) (x y : num) :
  recs h = Arr2 rows ->
  eqb (vs h) zero = false -> eqb (vp h) zero = false ->
  nth_error rows i = Some r ->
  predicted_at h i x y
  = mul (sub (quot one (vs h)) (quot one (vp h))) (distance x y r).
Proof.
  intros Hr Hs Hp Hi. unfold predicted_at.
  rewrite (predicted_run h rows x y Hr Hs Hp). simpl fst.
  apply nth_error_nth.
  now apply (map_nth_error (fun r => mul _ (distance x y r))).
Qed.

(** The empty Python list makes a one-dimensional array, which
    [predicted] cannot index by column. *)
Lemma predicted_empty_list (ttres : list num) (vp0 vs0 x y : num) :
  eqb vs0 zero = false -> eqb vp0 zero = false ->
  fst (predicted [x; y] (__init__ ttres [] vp0 vs0)) = Raise IndexError.
Proof.
  intros Hs Hp. unfold predicted.
  rewrite (bind_ok _ _ _ _ (x, y)) by reflexivity.
  rewrite (bind_ok _ _ _ _ _ (alpha_run (__init__ ttres [] vp0 vs0) Hs Hp)).
  now rewrite (bind_raise _ _ _ _ _
                 (distances_no_axis (__init__ ttres [] vp0 vs0) [] x y eq_refl)).
Qed.

Lemma np_len_array (rs : list (num * num)) : np_len (np_array rs) = length rs.
Proof. now destruct rs. Qed.

(** *** The claims that hold in any arithmetic *)

(** C3: for every params whose length is not 2, [predicted(params)] raises
    (the [ValueError] of the unpacking [x, y = p]) and returns no result. *)
Theorem predicted_rejects_wrong_length (h : Homogeneous) (p : list num) :
  length p <> 2 -> fst (predicted p h) = Raise ValueError.
Proof.
  intros Hl. now rewrite (predicted_bad_length h p Hl).
Qed.

(** C5: [predicted(p)] and [jacobian(p)] leave the instance as it was,
    whatever they return or raise; so after any sequence of such calls the
    receivers, the observations and the two velocities are those set by the
    constructor. *)
Theorem calls_leave_instance_unchanged (h : Homogeneous) (p : list num)
    (g : nat -> nat -> num) (ttres : list num) (rs : list (num * num))
    (vp0 vs0 : num) (cs : list call) :
  snd (predicted p h) = h /\
  snd (jacobian g p h) = h /\
  after_calls cs h = h /\
  recs (after_calls cs (__init__ ttres rs vp0 vs0)) = np_array rs /\
  data (after_calls cs (__init__ ttres rs vp0 vs0)) = ttres /\
  vp (after_calls cs (__init__ ttres rs vp0 vs0)) = vp0 /\
  vs (after_calls cs (__init__ ttres rs vp0 vs0)) = vs0.
Proof.
  rewrite !after_calls_same.
  repeat split.
  - apply predicted_preserves.
  - apply jacobian_preserves.
Qed.

(** C6, as the code has it: every constructed instance has two parameters
    and as many data as observations, and whatever [jacobian] returns has
    one row per observation and two columns.  The constructor keeps the
    receivers and the observations as they are given and compares nothing:
    the two lengths agree exactly when the caller passes them so, and then
    [jacobian] does return (non-empty receivers, nonzero velocities). *)
Theorem jacobian_rows_match_observations (ttres : list num)
    (rs : list (num * num)) (vp0 vs0 : num) :
  nparams (__init__ ttres rs vp0 vs0) = 2 /\
  ndata (__init__ ttres rs vp0 vs0) = length ttres /\
  length (data (__init__ ttres rs vp0 vs0)) = length ttres /\
  np_len (recs (__init__ ttres rs vp0 vs0)) = length rs /\
  (forall g p jac,
     fst (jacobian g p (__init__ ttres rs vp0 vs0)) = Ok jac ->
     length jac = length ttres /\ Forall (fun row => length row = 2) jac) /\
  (length rs = length ttres -> rs <> [] ->
   eqb vs0 zero = false -> eqb vp0 zero = false ->
   forall g x y, exists jac,
     fst (jacobian g [x; y] (__init__ ttres rs vp0 vs0)) = Ok jac /\
     length jac = length rs).
Proof.
  repeat split; try reflexivity.
  - simpl. apply np_len_array.
  - now apply (jacobian_shape g (__init__ ttres rs vp0 vs0) p jac eq_refl).
  - now apply (jacobian_shape g (__init__ ttres rs vp0 vs0) p jac eq_refl).
  - intros Hlen Hrs Hs Hp g x y.
    destruct rs as [|r rs']; [contradiction|].
    eexists.
    rewrite (jacobian_run g (__init__ ttres (r :: rs') vp0 vs0) (r :: rs') x y
               eq_refl (eq_sym Hlen) eq_refl Hs Hp).
    split; [reflexivity | apply length_map].
Qed.

(** C7: on a constructed instance the result of [predicted(p)] and of
    [jacobian(p)] is a function of the instance and of p alone: it is the
    same after any calls made in between, and whatever the memory that
    [np.empty] hands out holds. *)
Theorem methods_are_deterministic (ttres : list num) (rs : list (num * num))
    (vp0 vs0 : num) (p : list num) (g1 g2 : nat -> nat -> num)
    (cs : list call) :
  fst (predicted p (after_calls cs (__init__ ttres rs vp0 vs0)))
    = fst (predicted p (__init__ ttres rs vp0 vs0)) /\
  fst (jacobian g2 p (after_calls cs (__init__ ttres rs vp0 vs0)))
    = fst (jacobian g1 p (__init__ ttres rs vp0 vs0)).
Proof.
  rewrite !after_calls_same. split; [reflexivity|].
  now rewrite (jacobian_garbage g2 g1 (__init__ ttres rs vp0 vs0) p eq_refl).
Qed.

(** The Gauss-Newton loop run for a + b iterations. *)
Lemma gauss_newton_add (g : nat -> nat -> num) (a b : nat) :
  forall (p : num * num) (h : Homogeneous),
  gauss_newton g (a + b) p h
  = bind (gauss_newton g a p) (gauss_newton g b) h.
Proof.
  induction a as [|a IH]; intros p h; simpl.
  - reflexivity.
  - rewrite bind_assoc. apply bind_ext. intros p' h'. apply IH.
Qed.

End Epic2dFacts.

(** C3 at three parameters. *)
Lemma predicted_rejects_wrong_length_witness :
  fst (epic2d.predicted [1; 2; 3]%float solver) = Raise ValueError.
Proof.
  apply (predicted_rejects_wrong_length solver [1; 2; 3]%float).
  simpl. lia.
Defined.

(** C6 at the docstring's example, three receivers and three observations:
    [jacobian] returns three rows. *)
Lemma jacobian_rows_match_observations_witness :
  exists jac,
    fst (epic2d.jacobian (fun _ _ => 0%float) [1; 1]%float solver) = Ok jac /\
    length jac = length receivers.
Proof.
  apply (proj2 (proj2 (proj2 (proj2 (proj2
           (jacobian_rows_match_observations (H := Numeric_float)
              (epic2d.synthetic receivers 2 1 (5, 5))%float receivers
              2%float 1%float))))));
    try reflexivity.
  discriminate.
Defined.

(** C6 as stated fails: an instance constructed with one receiver and
    three observations; its Jacobian has three rows all the same. *)
Lemma one_receiver_three_observations :
  epic2d.np_len (epic2d.recs lone_receiver) <> length (epic2d.data lone_receiver) /\
  exists jac,
    fst (epic2d.jacobian (fun _ _ => 0%float) [1; 1]%float lone_receiver) = Ok jac /\
    length jac = 3.
Proof.
  split.
  - simpl. lia.
  - eexists. split; [vm_compute; reflexivity | reflexivity].
Qed.

(** ** The mathematics of the docstring: the formulas over the real numbers *)

Section Epic2dReals.
Import epic2d.
Local Open Scope R_scope.

Lemma eqb_R_neq (a b : R) : a <> b -> eqb a b = false.
Proof. intros Hab. simpl. now destruct (Req_dec_T a b). Qed.

Lemma eqb_R_eq (a b : R) : a = b -> eqb a b = true.
Proof. intros Hab. simpl. now destruct (Req_dec_T a b). Qed.

Lemma distance_dist_euc (x y : R) (r : R * R) :
  distance x y r = dist_euc (fst r) (snd r) x y.
Proof. reflexivity. Qed.

Lemma distance_pos (x y : R) (r : R * R) :
  r <> (x, y) -> 0 < distance x y r.
Proof.
  intros Hr. destruct r as [xi yi]. unfold distance, square. simpl.
  apply sqrt_lt_R0.
  assert (Hd : xi - x <> 0 \/ yi - y <> 0).
  { destruct (Req_dec (xi - x) 0) as [Ex|Ex]; [|now left].
    destruct (Req_dec (yi - y) 0) as [Ey|Ey]; [|now right].
    exfalso. apply Hr. f_equal; lra. }
  pose proof (Rle_0_sqr (xi - x)) as Px.
  pose proof (Rle_0_sqr (yi - y)) as Py.
  destruct Hd as [Hd|Hd]; apply Rsqr_pos_lt in Hd; unfold Rsqr in *; lra.
Qed.

Lemma derivable_pt_lim_ext (f g : R -> R) (x l : R) :
  (forall t, f t = g t) -> derivable_pt_lim f x l -> derivable_pt_lim g x l.
Proof.
  intros E Hf eps Heps. destruct (Hf eps Heps) as [d Hd].
  exists d. intros t Ht Hlt. rewrite <- !E. now apply Hd.
Qed.

(** The derivative of [a * sqrt ((xi - t)^2 + c)] in t, away from the
    zero of the square root. *)
Lemma scaled_distance_deriv (a xi c x : R) :
  0 < (xi - x) * (xi - x) + c ->
  derivable_pt_lim (fun t => a * R_sqrt.sqrt ((xi - t) * (xi - t) + c)) x
    (- a * (xi - x) / R_sqrt.sqrt ((xi - x) * (xi - x) + c)).
Proof.
  intros Hpos.
  pose (u := fun t : R => (xi - t) * (xi - t) + c).
  assert (Hu : derivable_pt_lim u x (- 2 * (xi - x))).
  { unfold u.
    replace (- 2 * (xi - x))
      with (((0 - 1) * (xi - x) + (xi - x) * (0 - 1)) + 0) by ring.
    apply (derivable_pt_lim_plus (fun t => (xi - t) * (xi - t)) (fun _ => c)).
    - apply (derivable_pt_lim_mult (fun t => xi - t) (fun t => xi - t)).
      + apply (derivable_pt_lim_minus (fun _ => xi) (fun t => t)).
        * apply derivable_pt_lim_const.
        * apply derivable_pt_lim_id.
      + apply (derivable_pt_lim_minus (fun _ => xi) (fun t => t)).
        * apply derivable_pt_lim_const.
        * apply derivable_pt_lim_id.
    - apply derivable_pt_lim_const. }
  assert (Hs : derivable_pt_lim (comp R_sqrt.sqrt u) x
                 (/ (2 * R_sqrt.sqrt (u x)) * (- 2 * (xi - x)))).
  { apply derivable_pt_lim_comp; [exact Hu|].
    apply derivable_pt_lim_sqrt. exact Hpos. }
  apply (derivable_pt_lim_scal _ a) in Hs.
  assert (Hne : R_sqrt.sqrt (u x) <> 0).
  { apply Rgt_not_eq. apply sqrt_lt_R0. exact Hpos. }
  replace (- a * (xi - x) / R_sqrt.sqrt ((xi - x) * (xi - x) + c))
    with (a * (/ (2 * R_sqrt.sqrt (u x)) * (- 2 * (xi - x)))).
  - eapply derivable_pt_lim_ext; [|exact Hs]. intros t. reflexivity.
  - unfold u in *. field. exact Hne.
Qed.


(** In exact real arithmetic the expression that [predicted] evaluates is
    the docstring's: element i is (1/Vs - 1/Vp) times the Euclidean distance
    between receiver i and (x, y).  The code evaluates it in binary64, where
    this holds up to rounding only. *)
Lemma predicted_spec (h : Homogeneous) (rows : list (R * R)) (x y : R) :
  recs h = Arr2 rows -> vp h <> 0 -> vs h <> 0 ->
  exists pred,
    fst (predicted [x; y] h) = Ok pred /\
    length pred = length rows /\
    forall i xi yi, nth_error rows i = Some (xi, yi) ->
      nth_error pred i = Some ((1 / vs h - 1 / vp h) * dist_euc xi yi x y).
Proof.
  intros Hr Hp Hs.
  eexists. rewrite (predicted_run h rows x y Hr (eqb_R_neq _ _ Hs) (eqb_R_neq _ _ Hp)).
  split; [reflexivity|]. split.
  - apply length_map.
  - intros i xi yi Hi.
    exact (map_nth_error
             (fun r => (1 / vs h - 1 / vp h) * dist_euc (fst r) (snd r) x y)
             i rows Hi).
Qed.

(** In exact real arithmetic the expressions that [jacobian] evaluates are
    the partial derivatives of the expression that [predicted] evaluates, in
    x and in y, at every (x, y) that no receiver coincides with.  The code
    evaluates them in binary64, where this holds up to rounding only. *)
Lemma jacobian_spec (g : nat -> nat -> R) (h : Homogeneous)
    (rows : list (R * R)) (x y : R) :
  recs h = Arr2 rows -> ndata h = length rows -> nparams h = 2%nat ->
  vp h <> 0 -> vs h <> 0 ->
  Forall (fun r => r <> (x, y)) rows ->
  exists jac,
    fst (jacobian g [x; y] h) = Ok jac /\
    length jac = length rows /\
    forall i xi yi, nth_error rows i = Some (xi, yi) ->
      exists gx gy,
        nth_error jac i = Some [gx; gy] /\
        gx = - (1 / vs h - 1 / vp h) * (xi - x) / dist_euc xi yi x y /\
        gy = - (1 / vs h - 1 / vp h) * (yi - y) / dist_euc xi yi x y /\
        derivable_pt_lim (fun x' => predicted_at h i x' y) x gx /\
        derivable_pt_lim (fun y' => predicted_at h i x y') y gy.
Proof.
  intros Hr Hn Hm Hp Hs Hfar.
  pose proof (eqb_R_neq _ _ Hs) as Es. pose proof (eqb_R_neq _ _ Hp) as Ep.
  eexists. rewrite (jacobian_run g h rows x y Hr Hn Hm Es Ep).
  split; [reflexivity|]. split; [apply length_map|].
  intros i xi yi Hi.
  assert (Hpos : 0 < (xi - x) * (xi - x) + (yi - y) * (yi - y)).
  { rewrite Forall_forall in Hfar.
    pose proof (distance_pos x y (xi, yi) (Hfar _ (nth_error_In _ _ Hi))) as Hd.
    unfold distance, square in Hd. simpl in Hd.
    destruct (Rle_or_lt ((xi - x) * (xi - x) + (yi - y) * (yi - y)) 0) as [Hle|]; [|assumption].
    rewrite (sqrt_neg_0 _ Hle) in Hd. lra. }
  do 2 eexists. split.
  { exact (map_nth_error (jacobian_row (1 / vs h - 1 / vp h) x y) i rows Hi). }
  split; [reflexivity|]. split; [reflexivity|]. split.
  - eapply derivable_pt_lim_ext.
    + intros t. symmetry.
      apply (predicted_at_run h rows i (xi, yi) t y Hr Es Ep Hi).
    + apply (scaled_distance_deriv (1 / vs h - 1 / vp h) xi ((yi - y) * (yi - y)) x Hpos).
  - rewrite Rplus_comm in Hpos.
    eapply derivable_pt_lim_ext.
    + intros t. symmetry.
      rewrite (predicted_at_run h rows i (xi, yi) x t Hr Es Ep Hi).
      unfold distance, square. simpl. rewrite Rplus_comm. reflexivity.
    + unfold distance, square. simpl.
      rewrite (Rplus_comm ((xi - x) * (xi - x))).
      apply (scaled_distance_deriv (1 / vs h - 1 / vp h) yi ((xi - x) * (xi - x)) y Hpos).
Qed.

End Epic2dReals.

(** ** The epicenter forward model in binary64 *)

Section Binary64.
Local Open Scope float_scope.

Lemma nan_of_spec (f : float) : Prim2SF f = S754_nan -> f = nan.
Proof.
  intros E. rewrite <- (SF2Prim_Prim2SF f), E. reflexivity.
Qed.

Lemma SFeqb_finite (s1 s2 : bool) (m1 m2 : positive) (e1 e2 : Z) :
  SFeqb (S754_finite s1 m1 e1) (S754_finite s2 m2 e2) = true ->
  s1 = s2 /\ m1 = m2 /\ e1 = e2.
Proof.
  unfold SFeqb, SFcompare.
  destruct s1, s2; try discriminate;
    destruct (Z.compare e1 e2) eqn:Ee; try discriminate;
    destruct (Pos.compare_cont Eq m1 m2) eqn:Em; try discriminate;
    intros _; apply Z.compare_eq in Ee; apply Pos.compare_eq in Em; auto.
Qed.

Lemma sub_of_equal (a b : float) :
  (a =? b) = true -> zero_or_nan (a - b).
Proof.
  rewrite eqb_spec. unfold zero_or_nan. rewrite sub_spec.
  destruct (Prim2SF a) as [sa|sa| |sa ma ea], (Prim2SF b) as [sb|sb| |sb mb eb];
    intros E; try discriminate E; try exact I;
    try (destruct sa, sb; (discriminate E || exact I)).
  all: try (destruct sa; discriminate E).
  all: try (destruct sb; discriminate E).
  apply SFeqb_finite in E. destruct E as [<- [<- <-]].
    unfold SF64sub, SFsub. rewrite Z.sub_diag. exact I.
Qed.

Lemma square_zero_or_nan (a : float) : zero_or_nan a -> zero_or_nan (a * a).
Proof.
  unfold zero_or_nan. rewrite mul_spec.
  destruct (Prim2SF a); intros Ha; try contradiction; exact I.
Qed.

Lemma add_zero_or_nan (a b : float) :
  zero_or_nan a -> zero_or_nan b -> zero_or_nan (a + b).
Proof.
  unfold zero_or_nan. rewrite add_spec.
  destruct (Prim2SF a) as [sa| | |], (Prim2SF b) as [sb| | |];
    intros Ha Hb; try contradiction; try exact I.
  destruct sa, sb; exact I.
Qed.

Lemma sqrt_zero_or_nan (a : float) : zero_or_nan a -> zero_or_nan (PrimFloat.sqrt a).
Proof.
  unfold zero_or_nan. rewrite sqrt_spec.
  destruct (Prim2SF a); intros Ha; try contradiction; exact I.
Qed.

Lemma mul_zero_or_nan (c a : float) : zero_or_nan a -> zero_or_nan (c * a).
Proof.
  unfold zero_or_nan. rewrite mul_spec.
  destruct (Prim2SF c), (Prim2SF a); intros Ha; try contradiction; exact I.
Qed.

Lemma div_zero_or_nan (a b : float) :
  zero_or_nan a -> zero_or_nan b -> a / b = nan.
Proof.
  unfold zero_or_nan. intros Ha Hb. apply nan_of_spec. rewrite div_spec.
  destruct (Prim2SF a), (Prim2SF b); try contradiction; reflexivity.
Qed.

Lemma binary_round_aux_sign (sx : bool) (mx : Z) (ex : Z) (lx : location) :
  sign_or_zero sx (binary_round_aux prec emax sx mx ex lx).
Proof.
  unfold binary_round_aux.
  destruct (shr_fexp prec emax mx ex lx) as [mrs' e'].
  destruct (shr_fexp prec emax _ e' loc_Exact) as [mrs'' e''].
  destruct (shr_m mrs''); simpl; auto.
  destruct (Z.leb e'' _); reflexivity.
Qed.

Lemma binary_round_sign (sx : bool) (mx : positive) (ex : Z) :
  sign_or_zero sx (binary_round prec emax sx mx ex).
Proof.
  unfold binary_round.
  destruct (shl_align mx ex _) as [mz ez].
  apply binary_round_aux_sign.
Qed.

Lemma ltb_zero_false (f : float) : (f <? 0) = false <-> nonneg_or_nan f.
Proof.
  rewrite ltb_spec. unfold nonneg_or_nan, sign_or_zero.
  change (Prim2SF 0) with (S754_zero false).
  destruct (Prim2SF f) as [s|s| |s m e]; simpl; try tauto;
    destruct s; simpl; split; intros; try reflexivity; try discriminate.
Qed.

Lemma square_nonneg_or_nan (a : float) : nonneg_or_nan (a * a).
Proof.
  unfold nonneg_or_nan, sign_or_zero. rewrite mul_spec.
  destruct (Prim2SF a) as [s|s| |s m e]; simpl; auto.
  - now destruct s.
  - unfold SF64mul, SFmul.
    pose proof (binary_round_aux_sign (xorb s s) (Zpos (m * m)) (e + e) loc_Exact) as Hs.
    replace (xorb s s) with false in * by (now destruct s).
    exact Hs.
Qed.

Lemma mul_nonneg_or_nan (a b : float) :
  nonneg_or_nan a -> nonneg_or_nan b -> nonneg_or_nan (a * b).
Proof.
  unfold nonneg_or_nan, sign_or_zero. rewrite mul_spec.
  destruct (Prim2SF a) as [sa|sa| |sa ma ea], (Prim2SF b) as [sb|sb| |sb mb eb];
    simpl; intros Ha Hb; subst; auto.
  exact (binary_round_aux_sign false (Zpos (ma * mb)) (ea + eb) loc_Exact).
Qed.

Lemma add_nonneg_or_nan (a b : float) :
  nonneg_or_nan a -> nonneg_or_nan b -> nonneg_or_nan (a + b).
Proof.
  unfold nonneg_or_nan, sign_or_zero. rewrite add_spec.
  destruct (Prim2SF a) as [sa|sa| |sa ma ea], (Prim2SF b) as [sb|sb| |sb mb eb];
    simpl; intros Ha Hb; subst; auto.
  - now destruct sa, sb.
  - unfold SF64add, SFadd. simpl cond_Zopp.
    exact (binary_round_sign false _ _).
Qed.

Lemma sqrt_nonneg_or_nan (a : float) :
  nonneg_or_nan a -> nonneg_or_nan (PrimFloat.sqrt a).
Proof.
  unfold nonneg_or_nan, sign_or_zero. rewrite sqrt_spec.
  destruct (Prim2SF a) as [s|s| |s m e]; simpl; intros Ha; subst; auto.
  unfold SF64sqrt, SFsqrt.
  destruct (SFsqrt_core_binary prec emax (Zpos m) e) as [[mz ez] lz].
  exact (binary_round_aux_sign false mz ez lz).
Qed.

Import epic2d.







(** C4, as the code has it: in binary64, at a point (x, y) equal to the
    coordinates of receiver i, [jacobian] signals nothing: it returns its
    N-by-2 matrix, and row i of it is (nan, nan), the quotients of a zero
    or nan numerator by the zero or nan distance. *)
Theorem jacobian_coincident_nan (g : nat -> nat -> float) (h : Homogeneous)
    (rows : list (float * float)) (x y : float) (i : nat) (xi yi : float) :
  recs h = Arr2 rows -> ndata h = length rows -> nparams h = 2%nat ->
  (vp h =? 0) = false -> (vs h =? 0) = false ->
  nth_error rows i = Some (xi, yi) ->
  (xi =? x) = true -> (yi =? y) = true ->
  exists jac,
    fst (jacobian g [x; y] h) = Ok jac /\
    length jac = length rows /\
    nth_error jac i = Some [nan; nan].
Proof.
  intros Hr Hn Hm Hp Hs Hi Hx Hy.
  eexists. rewrite (jacobian_run (H := Numeric_float) g h rows x y Hr Hn Hm Hs Hp).
  split; [reflexivity|]. split; [apply length_map|].
  rewrite (map_nth_error (jacobian_row _ x y) i rows Hi).
  pose proof (sub_of_equal xi x Hx) as Zx.
  pose proof (sub_of_equal yi y Hy) as Zy.
  assert (Zd : zero_or_nan (distance x y (xi, yi))).
  { apply sqrt_zero_or_nan. apply add_zero_or_nan; now apply square_zero_or_nan. }
  unfold jacobian_row. simpl fst. simpl snd.
  do 2 f_equal.
  - apply div_zero_or_nan; [now apply mul_zero_or_nan | exact Zd].
  - f_equal. apply div_zero_or_nan; [now apply mul_zero_or_nan | exact Zd].
Qed.

(** C4 at the docstring's first receiver. *)
Lemma jacobian_coincident_nan_witness :
  exists jac,
    fst (jacobian (fun _ _ => 0) [5; 0] solver) = Ok jac /\
    length jac = length receivers /\
    nth_error jac 0 = Some [nan; nan].
Proof.
  apply (jacobian_coincident_nan (fun _ _ => 0) solver receivers 5 0 0 5 0);
    reflexivity.
Defined.

(** C4 as stated fails: at the first receiver of the docstring's example
    [jacobian] returns a matrix with a row of nan and raises nothing. *)
Lemma jacobian_at_receiver_no_error :
  fst (jacobian (fun _ _ => 0) [5; 0] solver)
    = Ok [[nan; nan]; [-0; -0.5]; [-0.5; -0]] /\
  ~ (exists e, fst (jacobian (fun _ _ => 0) [5; 0] solver) = Raise e).
Proof.
  assert (E : fst (jacobian (fun _ _ => 0) [5; 0] solver)
              = Ok [[nan; nan]; [-0; -0.5]; [-0.5; -0]]) by (vm_compute; reflexivity).
  split; [exact E|]. intros [e He]. rewrite E in He. discriminate.
Qed.

Lemma six_steps (g : nat -> nat -> float) :
  gauss_newton g 6 (1, 1) docstring_problem = (Ok (5, 5), docstring_problem).
Proof. vm_compute. reflexivity. Qed.

Lemma step_at_source (g : nat -> nat -> float) :
  gauss_newton_step g (5, 5) docstring_problem
  = (Ok (5, 5), docstring_problem).
Proof. vm_compute. reflexivity. Qed.

Lemma stays_at_source (g : nat -> nat -> float) (k : nat) :
  gauss_newton g k (5, 5) docstring_problem = (Ok (5, 5), docstring_problem).
Proof.
  induction k as [|k IH]; simpl.
  - reflexivity.
  - now rewrite (bind_ok _ _ _ _ _ (step_at_source g)).
Qed.

(** C8: in binary64, on the noiseless data of the docstring's example
    (receivers (5, 0), (5, 10), (10, 0), source (5, 5), Vp = 2, Vs = 1), the
    Gauss-Newton loop driven by [predicted] and [jacobian], started at the
    docstring's initial estimate (1, 1), reaches the source (5, 5) and stays
    there: every run of at least six iterations returns exactly (5, 5).  The
    data are the S minus P travel times of the straight rays from the
    source, 2.5, 2.5 and 3.5355339059327378 (0x1.c48c6001f0acp+1): they are
    generated independently of [predicted]. *)
Theorem gauss_newton_recovers_source :
  data docstring_problem = [2.5; 2.5; 0x1.c48c6001f0acp+1] /\
  exists N : nat, forall (g : nat -> nat -> float) (n : nat),
    (N <= n)%nat ->
    fst (gauss_newton g n (1, 1) docstring_problem) = Ok (5, 5).
Proof.
  split; [vm_compute; reflexivity|].
  exists 6%nat. intros g n Hn.
  replace n with (6 + (n - 6))%nat by lia.
  rewrite gauss_newton_add.
  rewrite (bind_ok _ _ _ _ _ (six_steps g)).
  now rewrite stays_at_source.
Qed.
End Binary64.

(** ** The derivative detector *)

(** An exception passed on by a bind is the one that was raised. *)
Ltac reraised H :=
  let E := fresh "E" in simpl; intros E; apply H; now inversion E.

Section DetectorFacts.
Import derivative_detector.
Context {num : Type} `{Numeric num}.

Lemma slope_run (value pre_value td : num) :
  slope value pre_value td
  = Ok (if negb (eqb td zero) then quot (sub value pre_value) td
        else sub value pre_value).
Proof.
  unfold slope, truediv. now destruct (eqb td zero).
Qed.

(** The loop of [_compute_derivatives] from item i + 1 on, the items
    before it being [prefix ++ [pre]]. *)
Lemma derivative_loop (s : DerivativeDetector) :
  forall (suffix prefix : list (num * num)) (pre : num * num) (acc : list num),
  time_series_items s = prefix ++ pre :: suffix ->
  for_each (combine (seq (S (length prefix)) (length suffix)) suffix)
           derivative_body acc s
  = (Ok (acc ++ rates pre suffix), s).
Proof.
  induction suffix as [|cur suffix IH]; intros prefix pre acc Hitems.
  - simpl. unfold ret. now rewrite app_nil_r.
  - simpl for_each.
    assert (Hbody : derivative_body (S (length prefix), cur) acc s
                    = (Ok (acc ++ [rate pre cur]), s)).
    { unfold derivative_body, bind, attr, lift, ret, index. simpl.
      rewrite Nat.sub_0_r, Hitems, nth_error_app2 by lia.
      rewrite Nat.sub_diag. simpl. rewrite slope_run. reflexivity. }
    rewrite (bind_ok _ _ s _ _ Hbody).
    pose proof (IH (prefix ++ [pre]) cur (acc ++ [rate pre cur])) as IH'.
    rewrite length_app, Nat.add_1_r, <- !app_assoc in IH'.
    now apply IH'.
Qed.

Lemma compute_derivatives_run (s : DerivativeDetector) :
  _compute_derivatives s
  = (Ok tt,
     set_derivatives
       match time_series_items s with
       | [] => []
       | pre :: rest => insert_first (rates pre rest)
       end s).
Proof.
  unfold _compute_derivatives, bind at 1, attr at 1.
  destruct (time_series_items s) as [|pre rest] eqn:Hitems.
  - reflexivity.
  - unfold enumerate. simpl length. simpl seq. simpl combine. simpl for_each.
    unfold derivative_body at 1. simpl. unfold bind at 2, ret at 1.
    pose proof (derivative_loop s rest [] pre [] Hitems) as Hloop.
    simpl length in Hloop. simpl app in Hloop.
    unfold bind. now rewrite Hloop.
Qed.

Lemma rates_length (pre : num * num) (l : list (num * num)) :
  length (rates pre l) = length l.
Proof.
  revert pre. induction l as [|cur l IH]; intros pre; simpl; auto.
Qed.

Lemma rates_nth (l : list (num * num)) :
  forall (pre : num * num) (j : nat) (a b : num * num),
  nth_error (pre :: l) j = Some a -> nth_error (pre :: l) (S j) = Some b ->
  nth_error (rates pre l) j = Some (rate a b).
Proof.
  induction l as [|cur l IH]; intros pre j a b Ha Hb.
  - destruct j; simpl in Hb; [discriminate|]. now destruct j.
  - destruct j as [|j]; simpl in *.
    + now inversion Ha; inversion Hb.
    + now apply IH.
Qed.

Section WithCollaborators.
Variable compute_ema : num -> list num -> list num.
Variable numpy_std : list num -> num.
Variable _denoise_scores : @dict num -> @dict num.
Variable TimeSeries : @dict num -> @dict num.

Lemma score_body_never_divides (ema : list num) (item : nat * (num * num))
    (scores : dict) (s : DerivativeDetector) :
  fst (score_body ema item scores s) <> Raise ZeroDivisionError.
Proof.
  unfold score_body, bind, attr, lift, ret, index.
  destruct (nth_error (derivatives s) (fst item)); simpl; [|discriminate].
  destruct (nth_error ema (fst item)); simpl; discriminate.
Qed.

Lemma dict_get_never_divides (k : num) (d : dict) :
  dict_get k d <> Raise ZeroDivisionError.
Proof.
  induction d as [|[k' v'] d IH]; simpl; [discriminate|].
  destruct (eqb k' k); [discriminate | exact IH].
Qed.

Lemma normalize_body_never_divides (stdev timestamp : num) (scores : dict)
    (s : DerivativeDetector) :
  eqb stdev zero = false ->
  fst (normalize_body stdev timestamp scores s) <> Raise ZeroDivisionError.
Proof.
  intros Hstd. unfold normalize_body, bind, lift, ret.
  pose proof (dict_get_never_divides timestamp scores) as Hget.
  destruct (dict_get timestamp scores) as [v|e]; simpl.
  - rewrite (truediv_ok _ _ Hstd). discriminate.
  - reraised Hget.
Qed.

Lemma normalized_never_divides (stdev : num) (scores : dict)
    (s : DerivativeDetector) :
  fst (normalized stdev scores s) <> Raise ZeroDivisionError.
Proof.
  unfold normalized. destruct (eqb stdev zero) eqn:Hstd; simpl.
  - discriminate.
  - apply for_each_never. intros a acc s'.
    now apply normalize_body_never_divides.
Qed.

Lemma raw_scores_never_divides (s : DerivativeDetector) :
  fst (raw_scores compute_ema s) <> Raise ZeroDivisionError.
Proof.
  unfold raw_scores.
  rewrite (bind_ok _ _ s _ _ (compute_derivatives_run s)).
  unfold bind, attr. apply for_each_never. intros a acc s'.
  apply score_body_never_divides.
Qed.

Lemma set_scores_never_divides (s : DerivativeDetector) :
  fst (_set_scores compute_ema numpy_std _denoise_scores TimeSeries s)
  <> Raise ZeroDivisionError.
Proof.
  unfold _set_scores. unfold bind at 1.
  pose proof (raw_scores_never_divides s) as Hraw.
  destruct (raw_scores compute_ema s) as [[scores|e] s1]; simpl in Hraw; [|reraised Hraw].
  unfold bind.
  pose proof (normalized_never_divides (numpy_std (dict_values scores)) scores s1) as Hn.
  destruct (normalized _ scores s1) as [[scores'|e] s2]; simpl in Hn; [|reraised Hn].
  unfold assign. simpl. discriminate.
Qed.

Lemma set_scores_unnormalized (s s1 : DerivativeDetector) (scores : dict) :
  raw_scores compute_ema s = (Ok scores, s1) ->
  eqb (numpy_std (dict_values scores)) zero = true ->
  _set_scores compute_ema numpy_std _denoise_scores TimeSeries s
  = (Ok tt, set_anom_scores (TimeSeries (_denoise_scores scores)) s1).
Proof.
  intros Hraw Hstd. unfold _set_scores.
  rewrite (bind_ok _ _ s _ _ Hraw). cbv zeta.
  unfold normalized. rewrite Hstd. reflexivity.
Qed.


(** C9 at its failing input, a series of one point: no derivative is
    computed, so the list stays empty, and [_set_scores], which reads one
    derivative per point, raises [IndexError]. *)
Theorem single_point_series (sf t v : num) (ds : list num) (sc : @dict num) :
  derivatives
    (snd (_compute_derivatives
            {| smoothing_factor := sf; time_series_items := [(t, v)];
               derivatives := ds; anom_scores := sc |})) = [] /\
  fst (_set_scores compute_ema numpy_std _denoise_scores TimeSeries
         {| smoothing_factor := sf; time_series_items := [(t, v)];
            derivatives := ds; anom_scores := sc |}) = Raise IndexError.
Proof.
  split.
  - now rewrite compute_derivatives_run.
  - unfold _set_scores, raw_scores.
    rewrite bind_assoc.
    rewrite (bind_ok _ _ _ _ _ (compute_derivatives_run _)).
    reflexivity.
Qed.

(** C10: [_compute_derivatives] never raises, and the derivative of an item
    whose time delta to the item before it is zero is the absolute
    difference of the two values; [_set_scores] never raises
    [ZeroDivisionError], and when the standard deviation of the scores is
    zero the scores are stored as they are. *)
Theorem detector_never_divides_by_zero (s : DerivativeDetector) :
  fst (_compute_derivatives s) = Ok tt /\
  (forall j t v t' v',
     nth_error (time_series_items s) j = Some (t, v) ->
     nth_error (time_series_items s) (S j) = Some (t', v') ->
     eqb (sub t' t) zero = true ->
     nth_error (derivatives (snd (_compute_derivatives s))) (S j)
     = Some (absv (sub v' v))) /\
  fst (_set_scores compute_ema numpy_std _denoise_scores TimeSeries s)
    <> Raise ZeroDivisionError /\
  (forall scores s1,
     raw_scores compute_ema s = (Ok scores, s1) ->
     eqb (numpy_std (dict_values scores)) zero = true ->
     _set_scores compute_ema numpy_std _denoise_scores TimeSeries s
     = (Ok tt, set_anom_scores (TimeSeries (_denoise_scores scores)) s1)).
Proof.
  split; [now rewrite compute_derivatives_run|].
  split; [|split; [apply set_scores_never_divides |
    intros scores s1; apply set_scores_unnormalized]].
  intros j t v t' v' Hj Hj' Htd.
  rewrite compute_derivatives_run. simpl.
  destruct (time_series_items s) as [|pre rest]; [now destruct j|].
  pose proof (rates_nth rest pre j (t, v) (t', v') Hj Hj') as Hr.
  destruct (rates pre rest) as [|d ds']; [now destruct j|].
  simpl. rewrite Hr. unfold rate. simpl. now rewrite Htd.
Qed.

End WithCollaborators.

(** Every derivative is an absolute value. *)
Lemma derivatives_are_absolute (s : DerivativeDetector) :
  Forall (fun d => exists z, d = absv z)
         (derivatives (snd (_compute_derivatives s))).
Proof.
  rewrite compute_derivatives_run. simpl.
  assert (Hall : forall l p, Forall (fun d => exists z, d = absv z) (rates p l)).
  { induction l as [|c l IH]; intros p; simpl; constructor; auto.
    unfold rate. eexists. reflexivity. }
  destruct (time_series_items s) as [|pre rest]; [constructor|].
  specialize (Hall rest pre).
  destruct (rates pre rest) as [|d ds]; [constructor|].
  simpl. constructor; [|exact Hall]. now inversion Hall.
Qed.

(** The derivatives of a series of two points or more: one per point, the
    first equal to the second. *)
Lemma derivatives_of_longer_series (s : DerivativeDetector) :
  2 <= length (time_series_items s) ->
  length (derivatives (snd (_compute_derivatives s)))
    = length (time_series_items s) /\
  nth_error (derivatives (snd (_compute_derivatives s))) 0
    = nth_error (derivatives (snd (_compute_derivatives s))) 1.
Proof.
  intros Hlen. rewrite compute_derivatives_run. simpl.
  destruct (time_series_items s) as [|pre [|cur rest]]; simpl in Hlen; try lia.
  simpl. split; [now rewrite rates_length | reflexivity].
Qed.

End DetectorFacts.

(** In exact real arithmetic every derivative is non-negative, being an
    absolute value. *)
Lemma derivatives_nonnegative (s : derivative_detector.DerivativeDetector) :
  Forall (fun d => 0 <= d)%R
    (derivative_detector.derivatives
       (snd (derivative_detector._compute_derivatives s))).
Proof.
  eapply Forall_impl; [|apply derivatives_are_absolute].
  intros d [z ->]. apply Rabs_pos.
Qed.

(** C10 at two readings with the same timestamp, over the real numbers:
    the derivative of the second is the absolute difference of the values. *)
Lemma detector_never_divides_by_zero_witness :
  nth_error
    (derivative_detector.derivatives
       (snd (derivative_detector._compute_derivatives two_readings)))
    1
  = Some (Rabs (5 - 2)).
Proof.
  apply (proj1 (proj2 (detector_never_divides_by_zero (H := Numeric_R)
                         (fun _ l => l) (fun _ => 0%R) (fun d => d) (fun d => d)
                         two_readings))
           0%nat 1%R 2%R 1%R 5%R); try reflexivity.
  apply eqb_R_eq. simpl. lra.
Defined.

(** ** The two classes at work in binary64 *)

(** 0x1.c48c6001f0acp+1 is 3.5355339059327378, and 0x1.6a09e667f3bccp-2 is
    0.35355339059327373. *)
Example predicted_at_the_source :
  fst (epic2d.predicted [5; 5]%float solver)
  = Ok [2.5; 2.5; 0x1.c48c6001f0acp+1]%float.
Proof. vm_compute. reflexivity. Qed.

Example jacobian_at_the_source :
  fst (epic2d.jacobian (fun _ _ => 0%float) [5; 5]%float solver)
  = Ok [[-0; 0.5]; [-0; -0.5];
        [-0x1.6a09e667f3bccp-2; 0x1.6a09e667f3bccp-2]]%float.
Proof. vm_compute. reflexivity. Qed.

Example derivatives_of_three_readings :
  derivative_detector.derivatives
    (snd (derivative_detector._compute_derivatives
            (derivative_detector.__init__ 0.25%float
               [(1, 2); (1, 5); (3, 9)]%float None)))
  = [3; 3; 2]%float.
Proof. vm_compute. reflexivity. Qed.

(** ** More on the epicenter forward model, in any arithmetic *)

Section Epic2dErrors.
Import epic2d.
Context {num : Type} `{Numeric num}.

Lemma broadcast_to_mismatch (n : nat) (v : list num) :
  length v <> n -> length v <> 1 -> broadcast_to n v = Raise ValueError.
Proof.
  intros Hn H1. unfold broadcast_to.
  rewrite (proj2 (Nat.eqb_neq _ _) Hn).
  destruct v as [|a [|b v]]; try reflexivity. now contradiction H1.
Qed.

Lemma broadcast_to_single (n : nat) (a : num) :
  broadcast_to n [a] = Ok (repeat a n).
Proof.
  unfold broadcast_to. simpl length.
  destruct (1 =? n) eqn:E; [|reflexivity].
  apply Nat.eqb_eq in E. now subst n.
Qed.

Lemma combine_repeat (u v : num) (n : nat) :
  map (fun ab => [fst ab; snd ab]) (combine (repeat u n) (repeat v n))
  = repeat [u; v] n.
Proof.
  induction n as [|n IH]; simpl; [reflexivity | now rewrite IH].
Qed.

(** [jacobian] unpacks its argument as [predicted] does: a parameter
    sequence whose length is not 2 raises [ValueError], and the instance is
    left as it was. *)
Theorem jacobian_rejects_wrong_length (g : nat -> nat -> num)
    (h : Homogeneous) (p : list num) :
  length p <> 2 -> jacobian g p h = (Raise ValueError, h).
Proof.
  intros Hl. unfold jacobian.
  apply bind_raise. unfold lift. now rewrite unpack2_length.
Qed.

(** An instance constructed from an empty list of receivers holds a
    one-dimensional array: with nonzero velocities both methods raise
    [IndexError] at every (x, y). *)
Theorem empty_receivers_raise (g : nat -> nat -> num) (ttres : list num)
    (vp0 vs0 x y : num) :
  eqb vs0 zero = false -> eqb vp0 zero = false ->
  fst (predicted [x; y] (__init__ ttres [] vp0 vs0)) = Raise IndexError /\
  fst (jacobian g [x; y] (__init__ ttres [] vp0 vs0)) = Raise IndexError.
Proof.
  intros Hs Hp. split.
  - unfold predicted.
    rewrite (bind_ok _ _ _ _ (x, y)) by reflexivity.
    rewrite (bind_ok _ _ _ _ _ (alpha_run (__init__ ttres [] vp0 vs0) Hs Hp)).
    now rewrite (bind_raise _ _ _ _ _
                   (distances_no_axis (__init__ ttres [] vp0 vs0) [] x y eq_refl)).
  - unfold jacobian.
    rewrite (bind_ok _ _ _ _ (x, y)) by reflexivity.
    rewrite (bind_ok _ _ _ _ _ (alpha_run (__init__ ttres [] vp0 vs0) Hs Hp)).
    cbv zeta.
    now rewrite (bind_raise _ _ _ _ _
                   (distances_no_axis (__init__ ttres [] vp0 vs0) [] x y eq_refl)).
Qed.

(** With a single receiver the two columns are broadcast: [jacobian]
    returns [ndata] copies of that receiver's row, whatever [ndata] is. *)
Theorem single_receiver_is_broadcast (g : nat -> nat -> num)
    (h : Homogeneous) (r : num * num) (x y : num) :
  recs h = Arr2 [r] -> nparams h = 2 ->
  eqb (vs h) zero = false -> eqb (vp h) zero = false ->
  fst (jacobian g [x; y] h)
  = Ok (repeat (jacobian_row (sub (quot one (vs h)) (quot one (vp h))) x y r)
               (ndata h)).
Proof.
  intros Hr Hm Hs Hp.
  rewrite (jacobian_closed g h [r] x y Hr Hm Hs Hp). cbv zeta. simpl map.
  rewrite !broadcast_to_single. simpl fst.
  now rewrite combine_repeat.
Qed.

(** With several receivers whose number differs from the number of
    observations, the column assignment cannot broadcast and [jacobian]
    raises [ValueError]. *)
Theorem receivers_observations_mismatch_raises (g : nat -> nat -> num)
    (h : Homogeneous) (rows : list (num * num)) (x y : num) :
  recs h = Arr2 rows -> nparams h = 2 ->
  eqb (vs h) zero = false -> eqb (vp h) zero = false ->
  length rows <> ndata h -> length rows <> 1 ->
  fst (jacobian g [x; y] h) = Raise ValueError.
Proof.
  intros Hr Hm Hs Hp Hn H1.
  rewrite (jacobian_closed g h rows x y Hr Hm Hs Hp). cbv zeta.
  rewrite broadcast_to_mismatch by (now rewrite length_map).
  reflexivity.
Qed.

End Epic2dErrors.

(** [jacobian_rejects_wrong_length] at three parameters. *)
Lemma jacobian_rejects_wrong_length_witness :
  epic2d.jacobian (fun _ _ => 0%float) [1; 2; 3]%float solver
  = (Raise ValueError, solver).
Proof.
  apply (jacobian_rejects_wrong_length (fun _ _ => 0%float) solver
           [1; 2; 3]%float).
  simpl. lia.
Defined.

(** [empty_receivers_raise] at Vp = 2, Vs = 1. *)
Lemma empty_receivers_raise_witness :
  fst (epic2d.predicted [1; 1]%float (epic2d.__init__ [] [] 2 1)%float)
    = Raise IndexError /\
  fst (epic2d.jacobian (fun _ _ => 0%float) [1; 1]%float
         (epic2d.__init__ [] [] 2 1)%float)
    = Raise IndexError.
Proof.
  apply (empty_receivers_raise (H := Numeric_float) (fun _ _ => 0%float)
           [] 2%float 1%float 1%float 1%float); reflexivity.
Defined.

(** [single_receiver_is_broadcast] at one receiver and three observations. *)
Lemma single_receiver_is_broadcast_witness :
  fst (epic2d.jacobian (fun _ _ => 0%float) [1; 1]%float lone_receiver)
  = Ok (repeat (epic2d.jacobian_row (1 / 1 - 1 / 2) 1 1 (0, 0))%float 3).
Proof.
  apply (single_receiver_is_broadcast (H := Numeric_float) (fun _ _ => 0%float)
           lone_receiver (0, 0)%float 1%float 1%float); reflexivity.
Defined.

(** [receivers_observations_mismatch_raises] at three receivers and one
    observation. *)
Lemma receivers_observations_mismatch_raises_witness :
  fst (epic2d.jacobian (fun _ _ => 0%float) [1; 1]%float
         (epic2d.__init__ [1] receivers 2 1)%float)
  = Raise ValueError.
Proof.
  apply (receivers_observations_mismatch_raises (H := Numeric_float)
           (fun _ _ => 0%float) (epic2d.__init__ [1] receivers 2 1)%float
           receivers 1%float 1%float); try reflexivity; simpl; lia.
Defined.

(** ** The sign and the zeros of the predicted data in binary64 *)

Section Binary64Geometry.
Import epic2d.
Local Open Scope float_scope.

(** In binary64 the sign of [predicted] is that of the factor
    1/vs - 1/vp: when that factor does not compare below zero, no element
    that [predicted] returns does (each is a product of the factor and a
    square root, so it is positive, a zero, infinite or nan). *)
Theorem predicted_not_below_zero (h : Homogeneous)
    (rows : list (float * float)) (x y : float) :
  recs h = Arr2 rows -> (vp h =? 0) = false -> (vs h =? 0) = false ->
  (1 / vs h - 1 / vp h <? 0) = false ->
  exists pred,
    fst (predicted [x; y] h) = Ok pred /\
    Forall (fun t => (t <? 0) = false) pred.
Proof.
  intros Hr Hp Hs Ha. eexists.
  rewrite (predicted_run (H := Numeric_float) h rows x y Hr Hs Hp).
  split; [reflexivity|].
  apply Forall_map, Forall_forall. intros r _.
  apply ltb_zero_false. apply mul_nonneg_or_nan.
  - now apply ltb_zero_false.
  - apply sqrt_nonneg_or_nan, add_nonneg_or_nan; apply square_nonneg_or_nan.
Qed.

(** In binary64, at a point (x, y) equal to the coordinates of receiver i,
    element i of [predicted] is a zero or nan (nan when a coordinate or the
    factor 1/vs - 1/vp is infinite or nan). *)
Theorem predicted_at_receiver (h : Homogeneous)
    (rows : list (float * float)) (x y : float) (i : nat) (xi yi : float) :
  recs h = Arr2 rows -> (vp h =? 0) = false -> (vs h =? 0) = false ->
  nth_error rows i = Some (xi, yi) ->
  (xi =? x) = true -> (yi =? y) = true ->
  exists pred t,
    fst (predicted [x; y] h) = Ok pred /\
    nth_error pred i = Some t /\
    zero_or_nan t.
Proof.
  intros Hr Hp Hs Hi Hx Hy. eexists. eexists.
  rewrite (predicted_run (H := Numeric_float) h rows x y Hr Hs Hp).
  split; [reflexivity|]. split.
  - exact (map_nth_error (fun r => (1 / vs h - 1 / vp h)
             * PrimFloat.sqrt ((fst r - x) * (fst r - x) + (snd r - y) * (snd r - y)))
             i rows Hi).
  - cbn [fst snd].
    apply mul_zero_or_nan, sqrt_zero_or_nan.
    apply add_zero_or_nan; apply square_zero_or_nan; now apply sub_of_equal.
Qed.
End Binary64Geometry.

(** [predicted_not_below_zero] at the docstring's example. *)
Lemma predicted_not_below_zero_witness :
  exists pred,
    fst (epic2d.predicted [5; 5]%float solver) = Ok pred /\
    Forall (fun t => (t <? 0)%float = false) pred.
Proof.
  apply (predicted_not_below_zero solver receivers 5 5); reflexivity.
Defined.

(** [predicted_at_receiver] at the docstring's second receiver. *)
Lemma predicted_at_receiver_witness :
  exists pred t,
    fst (epic2d.predicted [5; 10]%float solver) = Ok pred /\
    nth_error pred 1 = Some t /\
    zero_or_nan t.
Proof.
  apply (predicted_at_receiver solver receivers 5 10 1 5 10); reflexivity.
Defined.

Lemma for_each_keeps {S A B : Type} (P : B -> Prop) (body : A -> B -> M S B) :
  (forall a acc s acc' s', P acc -> body a acc s = (Ok acc', s') -> P acc') ->
  forall l acc s r s',
    P acc -> for_each l body acc s = (Ok r, s') -> P r.
Proof.
  intros Hbody l. induction l as [|a l IH]; intros acc s r s' Hacc; simpl.
  - unfold ret. now intros [= <- _].
  - unfold bind. destruct (body a acc s) as [[acc'|e] s1] eqn:E; [|discriminate].
    apply IH. now apply (Hbody a acc s acc' s1).
Qed.

Section DetectorMore.
Import derivative_detector.
Context {num : Type} `{Numeric num}.

(** The derivative stored for item j + 1 is the rate between items j and
    j + 1. *)
Lemma derivatives_nth (s : DerivativeDetector) (j : nat) (a b : num * num) :
  nth_error (time_series_items s) j = Some a ->
  nth_error (time_series_items s) (S j) = Some b ->
  nth_error (derivatives (snd (_compute_derivatives s))) (S j)
  = Some (rate a b).
Proof.
  intros Ha Hb. rewrite compute_derivatives_run. simpl.
  destruct (time_series_items s) as [|pre rest]; [now destruct j|].
  pose proof (rates_nth rest pre j a b Ha Hb) as Hr.
  destruct (rates pre rest) as [|d ds']; [now destruct j|].
  exact Hr.
Qed.

(** [_compute_derivatives] writes [self.derivatives] and nothing else, and
    what it writes depends on the time series alone: computing the
    derivatives again gives the same object. *)
Theorem compute_derivatives_again (s : DerivativeDetector) :
  smoothing_factor (snd (_compute_derivatives s)) = smoothing_factor s /\
  time_series_items (snd (_compute_derivatives s)) = time_series_items s /\
  anom_scores (snd (_compute_derivatives s)) = anom_scores s /\
  _compute_derivatives (snd (_compute_derivatives s)) = _compute_derivatives s.
Proof.
  rewrite !compute_derivatives_run. simpl. repeat split.
Qed.

(** *** Dictionaries *)

Lemma dict_get_in (k : num) (d : dict) :
  In k (dict_keys d) -> eqb k k = true -> exists v, dict_get k d = Ok v.
Proof.
  intros Hin Hk. induction d as [|[k' v'] d IH]; simpl in *; [contradiction|].
  destruct (eqb k' k) eqn:E; [now exists v'|].
  destruct Hin as [->|Hin]; [congruence | now apply IH].
Qed.

Lemma dict_set_keys_found (k v q : num) (d : dict) :
  dict_get k d = Ok v -> dict_keys (dict_set k q d) = dict_keys d.
Proof.
  induction d as [|[k' v'] d IH]; simpl; [discriminate|].
  destruct (eqb k' k); simpl; [reflexivity|].
  intros Hget. now rewrite IH.
Qed.

Lemma dict_set_keys_in (k v k0 : num) (d : dict) :
  In k0 (dict_keys (dict_set k v d)) -> k0 = k \/ In k0 (dict_keys d).
Proof.
  induction d as [|[k' v'] d IH]; simpl.
  - intros [<-|[]]. now left.
  - destruct (eqb k' k); simpl.
    + intros [<-|Hin]; right; auto.
    + intros [<-|Hin]; [right; now left|].
      destruct (IH Hin) as [->|Hin']; auto.
Qed.

Section WithCollaboratorsMore.
Variable compute_ema : num -> list num -> list num.
Variable numpy_std : list num -> num.
Variable _denoise_scores : @dict num -> @dict num.
Variable TimeSeries : @dict num -> @dict num.

(** The first loop of [_set_scores] from item i on, when the derivatives
    and their moving average reach that far. *)
Lemma score_loop (ema : list num) (s : DerivativeDetector) :
  forall (suffix : list (num * num)) (i : nat) (acc : dict),
  i + length suffix <= length (derivatives s) ->
  i + length suffix <= length ema ->
  exists acc',
    for_each (combine (seq i (length suffix)) suffix) (score_body ema) acc s
    = (Ok acc', s) /\
    forall k, In k (dict_keys acc') ->
              In k (dict_keys acc) \/ In k (map fst suffix).
Proof.
  induction suffix as [|[t v] suffix IH]; intros i acc Hd He.
  - exists acc. split; [reflexivity | auto].
  - simpl in Hd, He. simpl for_each.
    destruct (nth_error (derivatives s) i) as [d|] eqn:Ed.
    2: { apply nth_error_None in Ed. lia. }
    destruct (nth_error ema i) as [e|] eqn:Ee.
    2: { apply nth_error_None in Ee. lia. }
    assert (Hbody : score_body ema (i, (t, v)) acc s
                    = (Ok (dict_set t (absv (sub d e)) acc), s)).
    { unfold score_body, bind, attr, lift, ret, index. simpl.
      now rewrite Ed, Ee. }
    rewrite (bind_ok _ _ s _ _ Hbody).
    destruct (IH (S i) (dict_set t (absv (sub d e)) acc)) as [acc' [Hrun Hkeys]];
      try lia.
    exists acc'. split; [exact Hrun|].
    intros k Hk. destruct (Hkeys k Hk) as [Hin|Hin].
    + destruct (dict_set_keys_in _ _ _ _ Hin) as [->|Hin'].
      * right. now left.
      * now left.
    + right. now right.
Qed.

(** The second loop over keys that the dictionary holds. *)
Lemma normalize_loop (stdev : num) (s : DerivativeDetector) :
  eqb stdev zero = false ->
  forall (ks : list num) (d : dict),
  (forall k, In k ks -> In k (dict_keys d) /\ eqb k k = true) ->
  exists d',
    for_each ks (normalize_body stdev) d s = (Ok d', s) /\
    dict_keys d' = dict_keys d.
Proof.
  intros Hstd ks. induction ks as [|k ks IH]; intros d Hks.
  - exists d. split; reflexivity.
  - simpl for_each.
    destruct (Hks k (or_introl eq_refl)) as [Hin Hk].
    destruct (dict_get_in k d Hin Hk) as [v Hget].
    assert (Hbody : normalize_body stdev k d s
                    = (Ok (dict_set k (quot v stdev) d), s)).
    { unfold normalize_body, bind, lift, ret.
      now rewrite Hget, (truediv_ok _ _ Hstd). }
    rewrite (bind_ok _ _ s _ _ Hbody).
    pose proof (dict_set_keys_found k v (quot v stdev) d Hget) as Hkeys.
    destruct (IH (dict_set k (quot v stdev) d)) as [d' [Hrun Hd']].
    { intros k0 Hk0. rewrite Hkeys. apply Hks. now right. }
    exists d'. split; [exact Hrun | congruence].
Qed.

(** [raw_scores] is the first loop, run on the object that holds the new
    derivatives. *)
Lemma raw_scores_unfold (s : DerivativeDetector) :
  raw_scores compute_ema s
  = for_each (enumerate (time_series_items s))
      (score_body (compute_ema (smoothing_factor s)
                     (derivatives_of (time_series_items s))))
      [] (set_derivatives (derivatives_of (time_series_items s)) s).
Proof.
  unfold raw_scores.
  rewrite (bind_ok _ _ s _ _ (compute_derivatives_run s)). reflexivity.
Qed.

(** For a series that is empty or has two points or more, whose timestamps
    are equal to themselves, and a moving average that is as long as the
    derivatives, [_set_scores] raises nothing. *)
Theorem set_scores_succeeds (s : DerivativeDetector) :
  length (time_series_items s) <> 1 ->
  (forall f l, length (compute_ema f l) = length l) ->
  Forall (fun item => eqb (fst item) (fst item) = true) (time_series_items s) ->
  fst (_set_scores compute_ema numpy_std _denoise_scores TimeSeries s) = Ok tt.
Proof.
  intros Hlen Hema Hrefl.
  assert (Hds : length (derivatives_of (time_series_items s))
                = length (time_series_items s)).
  { unfold derivatives_of.
    destruct (time_series_items s) as [|pre [|cur rest]];
      simpl in *; try reflexivity; try lia.
    now rewrite rates_length. }
  destruct (score_loop
              (compute_ema (smoothing_factor s)
                 (derivatives_of (time_series_items s)))
              (set_derivatives (derivatives_of (time_series_items s)) s)
              (time_series_items s) 0 [])
    as [scores [Hrun Hkeys]].
  { simpl. lia. }
  { rewrite Hema. simpl. lia. }
  change (combine (seq 0 (length (time_series_items s))) (time_series_items s))
    with (enumerate (time_series_items s)) in Hrun.
  rewrite <- raw_scores_unfold in Hrun.
  unfold _set_scores.
  rewrite (bind_ok _ _ s _ _ Hrun). cbv zeta.
  unfold normalized.
  destruct (eqb (numpy_std (dict_values scores)) zero) eqn:Hstd; simpl negb; cbv iota.
  - reflexivity.
  - destruct (normalize_loop (numpy_std (dict_values scores))
                (set_derivatives (derivatives_of (time_series_items s)) s) Hstd
                (dict_keys scores) scores) as [d' [Hnorm _]].
    { intros k Hk. split; [exact Hk|].
      destruct (Hkeys k Hk) as [[]|Hin].
      apply in_map_iff in Hin. destruct Hin as [item [<- Hitem]].
      rewrite Forall_forall in Hrefl. now apply Hrefl. }
    rewrite (bind_ok _ _ _ _ _ Hnorm). reflexivity.
Qed.

(** On an empty series nothing is computed and nothing raised: the
    derivatives are empty and the scores are those of the empty
    dictionary. *)
Theorem empty_series_scores (sf : num) (ds : list num) (sc : @dict num) :
  _set_scores compute_ema numpy_std _denoise_scores TimeSeries
    {| smoothing_factor := sf; time_series_items := [];
       derivatives := ds; anom_scores := sc |}
  = (Ok tt,
     {| smoothing_factor := sf; time_series_items := [];
        derivatives := []; anom_scores := TimeSeries (_denoise_scores []) |}).
Proof.
  unfold _set_scores, raw_scores.
  rewrite bind_assoc.
  rewrite (bind_ok _ _ _ _ _ (compute_derivatives_run _)).
  unfold bind, attr, normalized. simpl.
  now destruct (negb (eqb (numpy_std []) zero)).
Qed.

End WithCollaboratorsMore.
End DetectorMore.

(** ** The derivative detector over the real numbers *)

Section DetectorReals.
Import derivative_detector.
Local Open Scope R_scope.

(** Between two items with different timestamps the derivative is the
    absolute change of the value per unit of time. *)
Theorem derivative_is_rate_of_change (s : DerivativeDetector) (j : nat)
    (t v t' v' : R) :
  nth_error (time_series_items s) j = Some (t, v) ->
  nth_error (time_series_items s) (S j) = Some (t', v') ->
  t' <> t ->
  nth_error (derivatives (snd (_compute_derivatives s))) (S j)
  = Some (Rabs (v' - v) / Rabs (t' - t)).
Proof.
  intros Hj Hj' Hne.
  rewrite (derivatives_nth s j (t, v) (t', v') Hj Hj'). f_equal.
  unfold rate. simpl.
  destruct (Req_dec_T (t' - t) 0) as [E|E]; [exfalso; lra|]. simpl.
  unfold Rdiv. now rewrite Rabs_mult, Rabs_inv.
Qed.

(** *** Dictionaries keyed by real numbers *)

Lemma dict_set_new (k v : R) (d : dict) :
  ~ In k (dict_keys d) -> dict_set k v d = d ++ [(k, v)].
Proof.
  induction d as [|[k' v'] d IH]; simpl; intros Hk; [reflexivity|].
  destruct (Req_dec_T k' k) as [E|E]; [exfalso; auto|].
  rewrite IH by tauto. reflexivity.
Qed.

Lemma dict_set_keeps_nodup (k v : R) (d : dict) :
  NoDup (dict_keys d) -> NoDup (dict_keys (dict_set k v d)).
Proof.
  induction d as [|[k' v'] d IH]; simpl; intros Hd.
  - repeat constructor. auto.
  - inversion Hd as [|? ? Hnotin Hd']; subst.
    destruct (Req_dec_T k' k) as [E|E]; simpl.
    + now constructor.
    + constructor; [|now apply IH].
      intros Hin. destruct (dict_set_keys_in _ _ _ _ Hin) as [->|Hin']; auto.
Qed.

Lemma dict_get_skip (k : R) (p q : dict) :
  ~ In k (dict_keys p) -> dict_get k (p ++ q) = dict_get k q.
Proof.
  induction p as [|[k' v'] p IH]; simpl; intros Hk; [reflexivity|].
  destruct (Req_dec_T k' k) as [E|E]; [exfalso; auto|].
  apply IH. tauto.
Qed.

Lemma dict_set_skip (k v : R) (p q : dict) :
  ~ In k (dict_keys p) -> dict_set k v (p ++ q) = p ++ dict_set k v q.
Proof.
  induction p as [|[k' v'] p IH]; simpl; intros Hk; [reflexivity|].
  destruct (Req_dec_T k' k) as [E|E]; [exfalso; auto|].
  rewrite IH by tauto. reflexivity.
Qed.

Lemma dict_get_head (k v : R) (d : dict) : dict_get k ((k, v) :: d) = Ok v.
Proof. simpl. now destruct (Req_dec_T k k). Qed.

Lemma dict_set_head (k v q : R) (d : dict) :
  dict_set k q ((k, v) :: d) = (k, q) :: d.
Proof. simpl. now destruct (Req_dec_T k k). Qed.

(** The second loop, the scores before [suffix] being divided already. *)
Lemma normalize_loop_R (stdev : R) (s : DerivativeDetector) :
  stdev <> 0 ->
  forall (suffix prefix : dict),
  NoDup (dict_keys (prefix ++ suffix)) ->
  for_each (dict_keys suffix) (normalize_body stdev)
    (map (fun kv => (fst kv, snd kv / stdev)) prefix ++ suffix) s
  = (Ok (map (fun kv => (fst kv, snd kv / stdev)) (prefix ++ suffix)), s).
Proof.
  intros Hstd. induction suffix as [|[k v] suffix IH]; intros prefix Hnd.
  - simpl. unfold ret. now rewrite !app_nil_r.
  - simpl for_each.
    assert (Hk : ~ In k (dict_keys (map (fun kv => (fst kv, snd kv / stdev)) prefix))).
    { unfold dict_keys in *. rewrite map_map. simpl.
      rewrite map_app in Hnd. simpl in Hnd.
      apply NoDup_remove_2 in Hnd. intros Hin. apply Hnd.
      apply in_or_app. now left. }
    assert (Hbody : normalize_body stdev k
                      (map (fun kv => (fst kv, snd kv / stdev)) prefix
                       ++ (k, v) :: suffix) s
                    = (Ok (map (fun kv => (fst kv, snd kv / stdev))
                               (prefix ++ [(k, v)]) ++ suffix), s)).
    { unfold normalize_body, bind, lift, ret.
      rewrite (dict_get_skip k _ _ Hk), dict_get_head.
      rewrite (truediv_ok _ _ (eqb_R_neq _ _ Hstd)).
      rewrite (dict_set_skip k _ _ _ Hk), dict_set_head.
      rewrite map_app, <- app_assoc. reflexivity. }
    rewrite (bind_ok _ _ s _ _ Hbody).
    rewrite (IH (prefix ++ [(k, v)])).
    + now rewrite <- app_assoc.
    + now rewrite <- app_assoc.
Qed.

(** The first loop from item i on, for timestamps that are new. *)
Lemma score_loop_R (ema : list R) (s : DerivativeDetector) :
  forall (suffix : list (R * R)) (i : nat) (acc : dict),
  (i + length suffix <= length (derivatives s))%nat ->
  (i + length suffix <= length ema)%nat ->
  NoDup (dict_keys acc ++ map fst suffix) ->
  for_each (combine (seq i (length suffix)) suffix) (score_body ema) acc s
  = (Ok (acc ++ map (fun item =>
                       (fst (snd item),
                        Rabs (nth (fst item) (derivatives s) 0
                              - nth (fst item) ema 0)))
                    (combine (seq i (length suffix)) suffix)), s).
Proof.
  induction suffix as [|[t v] suffix IH]; intros i acc Hd He Hnd.
  - simpl. unfold ret. now rewrite app_nil_r.
  - simpl in Hd, He. simpl for_each.
    destruct (nth_error (derivatives s) i) as [d|] eqn:Ed.
    2: { apply nth_error_None in Ed. lia. }
    destruct (nth_error ema i) as [e|] eqn:Ee.
    2: { apply nth_error_None in Ee. lia. }
    assert (Hnew : ~ In t (dict_keys acc)).
    { simpl in Hnd. apply NoDup_remove_2 in Hnd. intros Hin. apply Hnd.
      apply in_or_app. now left. }
    assert (Hbody : score_body ema (i, (t, v)) acc s
                    = (Ok (acc ++ [(t, Rabs (d - e))]), s)).
    { unfold score_body, bind, attr, lift, ret, index. simpl fst. simpl snd.
      rewrite Ed, Ee. now rewrite (dict_set_new t _ acc Hnew). }
    rewrite (bind_ok _ _ s _ _ Hbody).
    rewrite (IH (S i) (acc ++ [(t, Rabs (d - e))])); try lia.
    + simpl map. rewrite (nth_error_nth _ _ 0 Ed), (nth_error_nth _ _ 0 Ee).
      now rewrite <- app_assoc.
    + unfold dict_keys in *. rewrite map_app, <- app_assoc. simpl. exact Hnd.
Qed.

Section WithCollaboratorsReals.
Variable compute_ema : R -> list R -> list R.
Variable numpy_std : list R -> R.
Variable _denoise_scores : @dict R -> @dict R.
Variable TimeSeries : @dict R -> @dict R.

Lemma score_body_keeps_nodup (ema : list R) (item : nat * (R * R))
    (acc : dict) (s : DerivativeDetector) (acc' : dict)
    (s' : DerivativeDetector) :
  NoDup (dict_keys acc) -> score_body ema item acc s = (Ok acc', s') ->
  NoDup (dict_keys acc').
Proof.
  intros Hnd. unfold score_body, bind, attr, lift, ret, index.
  destruct (nth_error (derivatives s) (fst item)); [|discriminate].
  destruct (nth_error ema (fst item)); [|discriminate].
  intros [= <- _]. now apply dict_set_keeps_nodup.
Qed.

(** When the standard deviation of the scores is not zero, [_set_scores]
    divides every score by it, once, and keeps the timestamps and their
    order; duplicates of a timestamp do not make it divide twice. *)
Theorem set_scores_divides_each_score (s s1 : DerivativeDetector)
    (scores : dict) :
  raw_scores compute_ema s = (Ok scores, s1) ->
  numpy_std (dict_values scores) <> 0 ->
  _set_scores compute_ema numpy_std _denoise_scores TimeSeries s
  = (Ok tt,
     set_anom_scores
       (TimeSeries
          (_denoise_scores
             (map (fun kv => (fst kv, snd kv / numpy_std (dict_values scores)))
                  scores)))
       s1).
Proof.
  intros Hraw Hstd.
  assert (Hnd : NoDup (dict_keys scores)).
  { rewrite raw_scores_unfold in Hraw.
    apply (for_each_keeps (fun d => NoDup (dict_keys d))
             (score_body (compute_ema (smoothing_factor s)
                            (derivatives_of (time_series_items s))))
             (score_body_keeps_nodup _)
             (enumerate (time_series_items s)) [] _ scores s1
             (NoDup_nil R) Hraw). }
  unfold _set_scores.
  rewrite (bind_ok _ _ s _ _ Hraw). cbv zeta.
  assert (E : eqb (numpy_std (dict_values scores)) zero = false)
    by (now apply eqb_R_neq).
  unfold normalized. rewrite E. simpl negb. cbv iota.
  pose proof (normalize_loop_R (numpy_std (dict_values scores)) s1 Hstd
                scores [] Hnd) as Hnorm.
  simpl in Hnorm.
  now rewrite (bind_ok _ _ s1 _ _ Hnorm).
Qed.

(** For a series of two points or more with pairwise different timestamps
    and a moving average as long as the derivatives, the score of point i
    before normalisation is |derivative i - average i|, one score per
    point, in the order of the series. *)
Theorem raw_scores_of_distinct_timestamps (s : DerivativeDetector) :
  (length (time_series_items s) <> 1)%nat ->
  (forall f l, length (compute_ema f l) = length l) ->
  NoDup (map fst (time_series_items s)) ->
  fst (raw_scores compute_ema s)
  = Ok (map (fun item =>
               (fst (snd item),
                Rabs (nth (fst item) (derivatives_of (time_series_items s)) 0
                      - nth (fst item)
                          (compute_ema (smoothing_factor s)
                             (derivatives_of (time_series_items s))) 0)))
            (enumerate (time_series_items s))).
Proof.
  intros Hlen Hema Hnd.
  assert (Hds : length (derivatives_of (time_series_items s))
                = length (time_series_items s)).
  { unfold derivatives_of.
    destruct (time_series_items s) as [|pre [|cur rest]];
      simpl in *; try reflexivity; try lia.
    now rewrite rates_length. }
  rewrite raw_scores_unfold. unfold enumerate.
  rewrite (score_loop_R
             (compute_ema (smoothing_factor s)
                (derivatives_of (time_series_items s)))
             (set_derivatives (derivatives_of (time_series_items s)) s)
             (time_series_items s) 0 []).
  - reflexivity.
  - simpl. lia.
  - rewrite Hema. simpl. lia.
  - exact Hnd.
Qed.

End WithCollaboratorsReals.
End DetectorReals.


(** [derivatives_of_longer_series] at three readings. *)
Lemma derivatives_of_longer_series_witness :
  length (derivative_detector.derivatives
            (snd (derivative_detector._compute_derivatives three_readings)))
    = length (derivative_detector.time_series_items three_readings) /\
  nth_error (derivative_detector.derivatives
               (snd (derivative_detector._compute_derivatives three_readings))) 0
    = nth_error (derivative_detector.derivatives
                   (snd (derivative_detector._compute_derivatives three_readings))) 1.
Proof.
  apply (derivatives_of_longer_series three_readings). simpl. lia.
Defined.

(** [set_scores_succeeds] at three readings, the moving average being the
    derivatives themselves. *)
Lemma set_scores_succeeds_witness :
  fst (derivative_detector._set_scores
         (fun _ l => l) (fun _ => 1%float) (fun d => d) (fun d => d)
         three_readings) = Ok tt.
Proof.
  apply (set_scores_succeeds (H := Numeric_float)
           (fun _ l => l) (fun _ => 1%float) (fun d => d) (fun d => d)
           three_readings).
  - simpl. lia.
  - reflexivity.
  - repeat constructor.
Defined.

(** [derivative_is_rate_of_change] at two readings. *)
Lemma derivative_is_rate_of_change_witness :
  nth_error
    (derivative_detector.derivatives
       (snd (derivative_detector._compute_derivatives rising_readings))) 1
  = Some (Rabs (9 - 2) / Rabs (3 - 1))%R.
Proof.
  apply (derivative_is_rate_of_change rising_readings 0 1 2 3 9);
    try reflexivity.
  lra.
Defined.

(** [raw_scores_of_distinct_timestamps] at two readings. *)
Lemma raw_scores_of_distinct_timestamps_witness :
  fst (derivative_detector.raw_scores (fun _ l => l) rising_readings)
  = Ok (map (fun item =>
               (fst (snd item),
                Rabs (nth (fst item)
                        (derivatives_of
                           (derivative_detector.time_series_items rising_readings))
                        0
                      - nth (fst item)
                          (derivatives_of
                             (derivative_detector.time_series_items rising_readings))
                          0)%R))
            (enumerate (derivative_detector.time_series_items rising_readings))).
Proof.
  apply (raw_scores_of_distinct_timestamps (fun _ l => l) rising_readings).
  - simpl. lia.
  - reflexivity.
  - simpl. repeat constructor; simpl; intros E; repeat destruct E as [E|E]; lra.
Defined.

(** [set_scores_divides_each_score] at two readings and a standard
    deviation of 1. *)
Lemma set_scores_divides_each_score_witness :
  derivative_detector._set_scores
    (fun _ l => l) (fun _ => 1%R) (fun d => d) (fun d => d) rising_readings
  = (Ok tt,
     derivative_detector.set_anom_scores
       (map (fun kv => (fst kv, snd kv / 1)%R)
            (map (fun item =>
                    (fst (snd item),
                     Rabs (nth (fst item)
                             (derivatives_of
                                (derivative_detector.time_series_items
                                   rising_readings)) 0
                           - nth (fst item)
                               (derivatives_of
                                  (derivative_detector.time_series_items
                                     rising_readings)) 0)%R))
                 (enumerate
                    (derivative_detector.time_series_items rising_readings))))
       (derivative_detector.set_derivatives
          (derivatives_of
             (derivative_detector.time_series_items rising_readings))
          rising_readings)).
Proof.
  apply (set_scores_divides_each_score
           (fun _ l => l) (fun _ => 1%R) (fun d => d) (fun d => d)
           rising_readings).
  - rewrite raw_scores_unfold.
    apply (score_loop_R
             (derivatives_of
                (derivative_detector.time_series_items rising_readings))
             (derivative_detector.set_derivatives
                (derivatives_of
                   (derivative_detector.time_series_items rising_readings))
                rising_readings)
             (derivative_detector.time_series_items rising_readings) 0 []).
    + simpl. lia.
    + simpl. lia.
    + simpl. repeat constructor; simpl; intros E; repeat destruct E as [E|E]; lra.
  - lra.
Defined.

(** ** The registry of model files *)

Section RegistryFacts.
Import Ascii String magmod_data.
Local Open Scope string_scope.

Lemma append_injective (p a b : string) : p ++ a = p ++ b -> a = b.
Proof.
  induction p as [|c p IH]; simpl; intros E; [exact E|].
  injection E as E. now apply IH.
Qed.

Lemma append_assoc (a b c : string) : (a ++ b) ++ c = a ++ (b ++ c).
Proof.
  induction a as [|x a IH]; simpl; [reflexivity | now rewrite IH].
Qed.

Lemma join_relative (a b : string) :
  starts_with_sep b = false -> join a b = directory_prefix a ++ b.
Proof.
  intros Hb. unfold join, directory_prefix. rewrite Hb.
  destruct (String.eqb a "" || ends_with_sep a)%bool; [reflexivity|].
  now rewrite append_assoc.
Qed.

Lemma files_in_directory (dir : string) :
  files dir = map (fun name => directory_prefix dir ++ name) file_names.
Proof.
  unfold files, file_names.
  unfold WMM_2015, WMM_2020, EMM_2010_STATIC, EMM_2010_SECVAR, EMM_2017_STATIC,
    EMM_2017_SECVAR, CHAOS6_CORE_X8, CHAOS6_STATIC, CHAOS7_CORE, CHAOS7_STATIC,
    IGRF11, IGRF12, IGRF13, SIFM, LCS1, MF7, DIFI3, DIFI4, APEX_2015, APEX_2020.
  rewrite !join_relative by reflexivity. reflexivity.
Qed.

Lemma file_names_distinct : NoDup file_names.
Proof.
  assert (E : nodup string_dec file_names = file_names) by (vm_compute; reflexivity).
  rewrite <- E. apply NoDup_nodup.
Qed.

(** Wherever the package is installed, the constants of the registry that
    are not aliases name pairwise different files, all of them directly in
    the package's directory: each is the directory, a separator unless the
    directory is empty or ends with one, and the file name.  The three
    aliases equal their targets. *)
Theorem registry_files_distinct (dir : string) :
  NoDup (files dir) /\
  files dir
  = map (fun name =>
           (if (String.eqb dir "" || ends_with_sep dir)%bool then dir
            else dir ++ "/") ++ name)
        file_names /\
  CHAOS6_CORE_LATEST dir = CHAOS6_CORE_X8 dir /\
  CHAOS7_CORE_LATEST dir = CHAOS7_CORE dir /\
  APEX dir = APEX_2020 dir.
Proof.
  split; [|split; [apply files_in_directory|]].
  - rewrite files_in_directory.
    apply Finite.Injective_map_NoDup; [|apply file_names_distinct].
    intros a b. apply append_injective.
  - repeat split.
Qed.

End RegistryFacts.


(** ** The derivative detector in binary64 *)

Lemma abs_not_below_zero (z : float) : (PrimFloat.abs z <? 0)%float = false.
Proof.
  rewrite ltb_spec, abs_spec.
  change (Prim2SF 0%float) with (S754_zero false).
  now destruct (Prim2SF z).
Qed.

(** In binary64 no derivative compares below zero: each is an absolute
    value, so it is positive, a zero, an infinity or nan. *)
Theorem derivatives_not_below_zero
    (s : derivative_detector.DerivativeDetector) :
  Forall (fun d => (d <? 0)%float = false)
    (derivative_detector.derivatives
       (snd (derivative_detector._compute_derivatives s))).
Proof.
  eapply Forall_impl; [|apply (derivatives_are_absolute (H := Numeric_float))].
  intros d [z ->]. apply abs_not_below_zero.
Qed.
